(** * Minute-bar store of zipline/data/us_equity_minutes.py

    A shallow embedding of [BcolzMinuteBarWriter] and [BcolzMinuteBarReader]:
    the canonical minute grid, the writer's scatter of sparse observations
    into dense uint32 columns, the reader's timestamp-to-offset arithmetic
    and its cache of opened column handles.

    Conventions.
    - A [pd.Timestamp] is its [value]: nanoseconds since the epoch, UTC.
    - A calendar date is its day number (days since the epoch); taking
      [year], [month], [day] of a date and rebuilding a [datetime] from
      them is the identity on day numbers.
    - Python integers are [Z]; Python exceptions are values of [exn]. *)

From stdpp Require Import base numbers list list_numbers sorting strings pretty gmap.
From Stdlib Require Import ZArith Lia.

Local Open Scope Z_scope.

(** ** Exceptions *)

Inductive exn : Set :=
  | IndexError    (* numpy index out of bounds, [df.index[-1]] on an empty frame *)
  | ValueError    (* [np.concatenate] of an empty sequence *)
  | OSError       (* [os.makedirs] on an existing path *)
  | KeyError      (* a missing dictionary key *)
  | IOError       (* [open] of a missing file *)
  | BackendError. (* raised inside bcolz: no table at a path, no such column *)

Inductive result (A : Type) : Type :=
  | Ok (a : A)
  | Raise (e : exn).
Arguments Ok {A} a.
Arguments Raise {A} e.

(** A raised exception skips the rest of the block: [x ← r; k]. *)
Global Instance result_ret : MRet result := λ A a, Ok a.
Global Instance result_bind : MBind result := λ A B k r,
  match r with
  | Ok a => k a
  | Raise e => Raise e
  end.

(** ** Time *)

Definition MINUTES_PER_DAY : Z := 390.

Definition NS_PER_SECOND : Z := 1000000000.
Definition NS_PER_MINUTE : Z := 60 * NS_PER_SECOND.
Definition NS_PER_DAY : Z := 86400 * NS_PER_SECOND.

(** [Timestamp.date()] of a UTC timestamp, and [env.normalize_date]. *)
Definition date (t : Z) : Z := t / NS_PER_DAY.

(** Modelled from the spec: [TradingEnvironment.normalize_date] (module
    zipline.finance.trading) is the calendar date of its argument, at
    midnight UTC; the date is all its callers here use. *)
Definition normalize_date (t : Z) : Z := date t.

(** [(a - b).total_seconds()] under [int(...)]: truncation toward zero. *)
Definition int_total_seconds (delta : Z) : Z := delta ÷ NS_PER_SECOND.

(** ** Stored objects *)

(** A persisted column set: column name to array. *)
Abbreviation ctable := (gmap string (list Z)).

Inductive node : Type :=
  | EmptyDir
  | CTable (t : ctable)
  | MetadataFile (first_trading_day : Z).

(** The file system: what exists at each path. *)
Abbreviation filesystem := (gmap string node).

(** A carray object handed out by an opened table: the table it belongs
    to (tables are numbered in the order [bcolz.open] created them), its
    column name and its content. *)
Record handle : Type := Handle {
  h_table : nat;
  h_field : string;
  h_data : list Z
}.

Record reader : Type := Reader {
  rootdir : string;
  first_trading_day : Z;
  trading_days : list Z;
  _sid_path_func : option (string → Z → string);
  _carrays : gmap string (gmap string handle)
}.

(** What a reader call can change: the reader object and the record of
    the paths [bcolz.open] has opened so far. *)
Abbreviation reader_state := (reader * list string)%type.

Section Store.

(** The US/Eastern rule of the time-zone database: [utc_lag d] is the
    number of seconds by which 09:31 Eastern wall-clock time on day [d]
    lags UTC (18000 under standard time, 14400 under daylight time). *)
Variable utc_lag : Z → Z.

(** [pd.Timestamp(datetime(day.year, day.month, day.day, 9, 31),
                  tz='US/Eastern').tz_convert('UTC')]. *)
Definition session_open (day : Z) : Z :=
  (day * 86400 + 9 * 3600 + 31 * 60 + utc_lag day) * NS_PER_SECOND.

(** [pd.date_range(start=..., periods=..., freq="min")]. *)
Definition date_range (start : Z) (periods : nat) : list Z :=
  (λ m : nat, start + Z.of_nat m * NS_PER_MINUTE) <$> seq 0 periods.

(** ** Calendar *)

(** [searchsorted] of numpy and pandas with the default [side='left']: the
    first position whose element is not below [v]. The arrays searched
    here, the calendar and the minute grid, are sorted, and on a sorted
    array the library's binary search finds the position this scan
    finds. *)
Fixpoint searchsorted (a : list Z) (v : Z) : Z :=
  match a with
  | [] => 0
  | x :: a' => if bool_decide (x < v) then 1 + searchsorted a' v else 0
  end.

(** Modelled from the spec: [TradingEnvironment.days_in_range] (module
    zipline.finance.trading) gives the trading days from [start_date]
    through [end_date] inclusive, in calendar order. *)
Definition days_in_range (env : list Z) (start_date end_date : Z) : list Z :=
  filter (λ d, start_date ≤ d ≤ end_date) env.

(** [tradingcalendar.trading_days[trading_days.slice_indexer(first)]]: the
    calendar from the first day that is not before [first]. *)
Definition slice_from (trading_days : list Z) (first : Z) : list Z :=
  drop (Z.to_nat (searchsorted trading_days first)) trading_days.

(** ** BcolzMinuteBarWriter.full_minutes_for_days *)

Definition full_minutes_for_days (env : list Z) (dt1 dt2 : Z)
  : result (list Z) :=
  let start_date := normalize_date dt1 in
  let end_date := normalize_date dt2 in
  let all_minutes :=
    (λ day, date_range (session_open day) 390)
      <$> days_in_range env start_date end_date in
  (* np.concatenate refuses an empty sequence of arrays *)
  match all_minutes with
  | [] => Raise ValueError
  | _ => Ok (concat all_minutes)
  end.

(** ** BcolzMinuteBarReader._find_position_of_minute

    [int(...) / 60] is the integer division of Python 2, which floors.
    (Under Python 3 the quotient is a float and the final [int] truncates
    the sum; the two agree whenever the returned position is not
    negative, see [_find_position_of_minute_py3].) *)
Definition minutes_offset_of (minute_dt : Z) : Z :=
  let day := date minute_dt in
  let day_open := session_open day in
  int_total_seconds (minute_dt - day_open) / 60.

Definition _find_position_of_minute (trading_days : list Z) (minute_dt : Z)
  : result Z :=
  let day := date minute_dt in
  let day_idx := searchsorted trading_days day in
  if bool_decide (day_idx < 0) then Ok (-1)
  else
    let day_open := session_open day in
    let minutes_offset := int_total_seconds (minute_dt - day_open) / 60 in
    Ok (390 * day_idx + minutes_offset).

(** The same function with Python 3's true division: the final [int]
    truncates [390 * day_idx + seconds / 60] toward zero. *)
Definition _find_position_of_minute_py3 (trading_days : list Z) (minute_dt : Z)
  : result Z :=
  let day := date minute_dt in
  let day_idx := searchsorted trading_days day in
  if bool_decide (day_idx < 0) then Ok (-1)
  else
    let day_open := session_open day in
    let seconds := int_total_seconds (minute_dt - day_open) in
    Ok ((390 * day_idx * 60 + seconds) ÷ 60).


(** ** Dense columns *)

(** A frame row: the index value and the five price and volume cells.
    Prices reach the writer integer-encoded; the float64 carrier of the
    frame is not modelled. *)
Record row : Set := Row {
  row_dt : Z;
  row_open : Z;
  row_high : Z;
  row_low : Z;
  row_close : Z;
  row_volume : Z
}.

(** Assignment into a [np.uint32] array keeps the low 32 bits. *)
Definition to_uint32 (v : Z) : Z := v `mod` 2 ^ 32.

(** [np.zeros(n, dtype=np.uint32)]. *)
Definition zeros (n : nat) : list Z := replicate n 0.

(** [a[idx] = v] on a numpy array: a negative index counts from the end,
    an index outside [-len, len) raises IndexError. *)
Definition setitem (a : list Z) (idx v : Z) : result (list Z) :=
  let n := Z.of_nat (length a) in
  if bool_decide (0 ≤ idx < n) then Ok (<[Z.to_nat idx := to_uint32 v]> a)
  else if bool_decide (- n ≤ idx < 0)
       then Ok (<[Z.to_nat (n + idx) := to_uint32 v]> a)
       else Raise IndexError.


Record columns : Set := Columns {
  dt_col : list Z;
  open_col : list Z;
  high_col : list Z;
  low_col : list Z;
  close_col : list Z;
  vol_col : list Z
}.

(** The body of [for row in df.iterrows()]. *)
Definition write_row (minutes : list Z) (cols : columns) (r : row)
  : result columns :=
  let dt := row_dt r in
  let idx := searchsorted minutes dt in
  dt_col' ← setitem (dt_col cols) idx (dt / NS_PER_SECOND);
  open_col' ← setitem (open_col cols) idx (row_open r);
  high_col' ← setitem (high_col cols) idx (row_high r);
  low_col' ← setitem (low_col cols) idx (row_low r);
  close_col' ← setitem (close_col cols) idx (row_close r);
  vol_col' ← setitem (vol_col cols) idx (row_volume r);
  Ok (Columns dt_col' open_col' high_col' low_col' close_col' vol_col').

Fixpoint write_rows (minutes : list Z) (cols : columns) (df : list row)
  : result columns :=
  match df with
  | [] => Ok cols
  | r :: df' => cols' ← write_row minutes cols r; write_rows minutes cols' df'
  end.

(** [df.index[-1]]. *)
Definition index_last (df : list row) : result Z :=
  match last df with
  | Some r => Ok (row_dt r)
  | None => Raise IndexError
  end.

(** The hardcoded calendar [tradingcalendar.trading_days], which the
    writer's [_writer_env] and the reader both consult. *)
Variable tradingcalendar_trading_days : list Z.

(** The in-memory part of one turn of the loop of [_write_internal]: grid,
    zeroed columns, scatter. *)
Definition dense_columns (first_trading_day : Z) (df : list row)
  : result columns :=
  let first_open := session_open first_trading_day in
  last_dt ← index_last df;
  minutes ← full_minutes_for_days tradingcalendar_trading_days first_open last_dt;
  let minutes_count := length minutes in
  write_rows minutes
    (Columns (zeros minutes_count) (zeros minutes_count) (zeros minutes_count)
             (zeros minutes_count) (zeros minutes_count) (zeros minutes_count))
    df.

(** ** Files *)

Definition METADATA_FILENAME : string := "metadata.json".

Fixpoint ends_with_slash (s : string) : bool :=
  match s with
  | EmptyString => false
  | String c EmptyString => bool_decide (String c EmptyString = "/")
  | String _ s' => ends_with_slash s'
  end.

(** [os.path.join a b] for a relative [b]. *)
Definition join (a b : string) : string :=
  if bool_decide (a = EmptyString) || ends_with_slash a then a +:+ b
  else a +:+ "/" +:+ b.

(** The store directory itself is taken to exist. *)
Definition write_metadata (directory : string) (first_trading_day : Z)
    (fs : filesystem) : filesystem :=
  let metadata_path := join directory METADATA_FILENAME in
  <[metadata_path := MetadataFile first_trading_day]> fs.

(** [os.makedirs(path)]: an existing path is an error. *)
Definition makedirs (path : string) (fs : filesystem)
  : result unit * filesystem :=
  match fs !! path with
  | Some _ => (Raise OSError, fs)
  | None => (Ok (), <[path := EmptyDir]> fs)
  end.

(** [ctable(columns=[...], names=[...], rootdir=path, mode='w')]. *)
Definition make_ctable (cols : columns) : ctable :=
  list_to_map
    [("open", open_col cols); ("high", high_col cols); ("low", low_col cols);
     ("close", close_col cols); ("volume", vol_col cols); ("dt", dt_col cols)].

Definition sid_path (sid_path_func : option (string → Z → string))
    (directory : string) (asset_id : Z) : string :=
  match sid_path_func with
  | None => join directory (pretty asset_id +:+ ".bcolz")
  | Some f => f directory asset_id
  end.

(** ** BcolzMinuteBarWriter._write_internal *)

(** One turn of [for asset_id, df in iterator]. *)
Definition write_asset (first_trading_day : Z) (directory : string)
    (sid_path_func : option (string → Z → string))
    (asset_id : Z) (df : list row) (fs : filesystem)
  : result unit * filesystem :=
  let path := sid_path sid_path_func directory asset_id in
  match makedirs path fs with
  | (Raise e, fs1) => (Raise e, fs1)
  | (Ok _, fs1) =>
      match dense_columns first_trading_day df with
      | Raise e => (Raise e, fs1)
      | Ok cols => (Ok (), <[path := CTable (make_ctable cols)]> fs1)
      end
  end.

Fixpoint write_assets (first_trading_day : Z) (directory : string)
    (sid_path_func : option (string → Z → string))
    (iterator : list (Z * list row)) (fs : filesystem)
  : result unit * filesystem :=
  match iterator with
  | [] => (Ok (), fs)
  | (asset_id, df) :: rest =>
      match write_asset first_trading_day directory sid_path_func
                        asset_id df fs with
      | (Raise e, fs1) => (Raise e, fs1)
      | (Ok _, fs1) =>
          write_assets first_trading_day directory sid_path_func rest fs1
      end
  end.

Definition _write_internal (first_trading_day : Z) (directory : string)
    (iterator : list (Z * list row))
    (sid_path_func : option (string → Z → string)) (fs : filesystem)
  : result unit * filesystem :=
  write_assets first_trading_day directory sid_path_func iterator
    (write_metadata directory first_trading_day fs).

(** ** BcolzMinuteBarReader *)


Definition _get_metadata (fs : filesystem) (rootdir : string) : result Z :=
  match fs !! join rootdir METADATA_FILENAME with
  | Some (MetadataFile d) => Ok d
  | _ => Raise IOError
  end.

(** [BcolzMinuteBarReader.__init__]. *)
Definition reader_init (fs : filesystem) (rootdir : string)
    (sid_path_func : option (string → Z → string)) : result reader :=
  first ← _get_metadata fs rootdir;
  Ok (Reader rootdir first (slice_from tradingcalendar_trading_days first)
        sid_path_func
        (list_to_map
           [("open", ∅); ("high", ∅); ("low", ∅); ("close", ∅);
            ("volume", ∅); ("sid", ∅); ("dt", ∅)])).

(** [bcolz.open(path, mode='r')] *)
Definition bcolz_open (fs : filesystem) (path : string) (opened : list string)
  : result (nat * ctable) * list string :=
  match fs !! path with
  | Some (CTable t) => (Ok (length opened, t), opened ++ [path])
  | _ => (Raise BackendError, opened)
  end.

Definition _get_ctable (fs : filesystem) (self : reader) (asset : Z)
    (opened : list string) : result (nat * ctable) * list string :=
  let sid := asset in
  let path :=
    match _sid_path_func self with
    | Some f => f (rootdir self) sid
    | None => rootdir self +:+ "/" +:+ pretty sid +:+ ".bcolz"
    end in
  bcolz_open fs path opened.

Definition set_carray (self : reader) (field sid_str : string) (c : handle)
  : result reader :=
  match _carrays self !! field with
  | None => Raise KeyError
  | Some d =>
      Ok (Reader (rootdir self) (first_trading_day self) (trading_days self)
            (_sid_path_func self)
            (<[field := <[sid_str := c]> d]> (_carrays self)))
  end.

Definition _open_minute_file (fs : filesystem) (field : string) (asset : Z)
    (st : reader_state) : result handle * reader_state :=
  let '(self, opened) := st in
  let sid_str := pretty asset in
  match _carrays self !! field ≫= (.!! sid_str) with
  | Some carray => (Ok carray, st)
  | None =>
      (* except KeyError *)
      match _get_ctable fs self asset opened with
      | (Raise e, opened') => (Raise e, (self, opened'))
      | (Ok (n, t), opened') =>
          match t !! field with
          | None => (Raise BackendError, (self, opened'))
          | Some data =>
              let carray := Handle n field data in
              match set_carray self field sid_str carray with
              | Raise e => (Raise e, (self, opened'))
              | Ok self' => (Ok carray, (self', opened'))
              end
          end
      end
  end.

(** A caller issuing several [_open_minute_file] calls in turn, going on
    after a call that raised. *)
Definition open_minute_files (fs : filesystem) (calls : list (string * Z))
    (st : reader_state) : reader_state :=
  foldl (λ st c, (_open_minute_file fs c.1 c.2 st).2) st calls.


End Store.

(** ** The six columns, by name

    The writer fills its six arrays in lockstep; these projections let a
    statement range over all of them. *)

Inductive column_name : Set :=
  | c_open | c_high | c_low | c_close | c_volume | c_dt.

Definition label (f : column_name) : string :=
  match f with
  | c_open => "open" | c_high => "high" | c_low => "low"
  | c_close => "close" | c_volume => "volume" | c_dt => "dt"
  end.

Definition column (f : column_name) (cols : columns) : list Z :=
  match f with
  | c_open => open_col cols | c_high => high_col cols | c_low => low_col cols
  | c_close => close_col cols | c_volume => vol_col cols | c_dt => dt_col cols
  end.

(** What [write_row] assigns to the column [f] from the row [r]. *)
Definition cell (f : column_name) (r : row) : Z :=
  match f with
  | c_open => row_open r | c_high => row_high r | c_low => row_low r
  | c_close => row_close r | c_volume => row_volume r
  | c_dt => row_dt r / NS_PER_SECOND
  end.

(** ** Frame sources and [BcolzMinuteBarWriter.write]

    [gen_frames] is a Python generator: nothing of it runs until the loop
    of [_write_internal] asks for the next pair, and an exception raised
    inside it surfaces in the loop at that point. A generator is
    represented by what it does when run to its end: the pairs it yields,
    in order, closed by a normal end or by a raised exception. *)

Inductive generator (A : Type) : Type :=
  | Yield (a : A) (rest : generator A)
  | StopIteration
  | Throw (e : exn).
Arguments Yield {A} a rest.
Arguments StopIteration {A}.
Arguments Throw {A} e.

(** [MinuteBarWriterFromDataFrames.gen_frames]: [assets] is the dictionary
    from asset to frame, in its iteration order; a frame is held with its
    [minute] column as index already. *)
Fixpoint MinuteBarWriterFromDataFrames_gen_frames (assets : list (Z * list row))
  : generator (Z * list row) :=
  match assets with
  | [] => StopIteration
  | (asset, df) :: rest =>
      Yield (asset, df) (MinuteBarWriterFromDataFrames_gen_frames rest)
  end.

(** [MinuteBarWriterFromCSVs.gen_frames]. [read_csv] stands for pandas
    reading and parsing the file at a path, with the index localized to
    UTC. *)
Fixpoint MinuteBarWriterFromCSVs_gen_frames (_asset_map : gmap Z string)
    (read_csv : string → result (list row)) (assets : list Z)
  : generator (Z * list row) :=
  match assets with
  | [] => StopIteration
  | asset :: rest =>
      match _asset_map !! asset with
      | None => Throw KeyError
      | Some path =>
          match read_csv path with
          | Raise e => Throw e
          | Ok df =>
              Yield (asset, df)
                (MinuteBarWriterFromCSVs_gen_frames _asset_map read_csv rest)
          end
      end
  end.

(** [for asset_id, df in iterator] of [_write_internal], over a generator. *)
Fixpoint write_frames (utc_lag : Z → Z) (calendar : list Z)
    (first_trading_day : Z) (directory : string)
    (sid_path_func : option (string → Z → string))
    (iterator : generator (Z * list row)) (fs : filesystem)
  : result unit * filesystem :=
  match iterator with
  | StopIteration => (Ok (), fs)
  | Throw e => (Raise e, fs)
  | Yield (asset_id, df) rest =>
      match write_asset utc_lag calendar first_trading_day directory
                        sid_path_func asset_id df fs with
      | (Raise e, fs1) => (Raise e, fs1)
      | (Ok _, fs1) =>
          write_frames utc_lag calendar first_trading_day directory
            sid_path_func rest fs1
      end
  end.

(** [BcolzMinuteBarWriter.write], with the generator of the subclass
    handed in: the metadata is written first, then the frames are pulled
    and written one by one. *)
Definition write (utc_lag : Z → Z) (calendar : list Z)
    (first_trading_day : Z) (directory : string)
    (_iterator : generator (Z * list row))
    (sid_path_func : option (string → Z → string)) (fs : filesystem)
  : result unit * filesystem :=
  write_frames utc_lag calendar first_trading_day directory sid_path_func
    _iterator (write_metadata directory first_trading_day fs).

(** ** Statements about the reader's cache *)

(** The path [_get_ctable] opens for an asset. *)
Definition reader_path (self : reader) (asset : Z) : string :=
  match _sid_path_func self with
  | Some f => f (rootdir self) asset
  | None => rootdir self +:+ "/" +:+ pretty asset +:+ ".bcolz"
  end.

(** Every cached handle is the column of its field in the table stored at
    the path of its asset, and was produced by the open recorded under its
    number. *)
Definition cache_sound (fs : filesystem) (st : reader_state) : Prop :=
  ∀ (field : string) (asset : Z) (h : handle),
    _carrays st.1 !! field ≫= (.!! pretty asset) = Some h →
    h_field h = field ∧
    st.2 !! h_table h = Some (reader_path st.1 asset) ∧
    ∃ t, fs !! reader_path st.1 asset = Some (CTable t) ∧
         t !! field = Some (h_data h).

(** ** Sample data

    Days are in January 2002, under Eastern standard time: 2002-01-02 is
    day 11689 (a Wednesday), 2002-01-05 and 06 are a weekend. *)

Definition winter_lag : Z → Z := λ _, 18000.

Definition sample_calendar : list Z := [11689; 11690; 11691; 11694].

(** 2002-01-02 09:31 Eastern, 14:31 UTC. *)
Definition sample_open : Z := 1009981860000000000.

(** A store holding instrument 7, with one bar at the first open, as
    [_write_internal] leaves it, and a reader opened on it. *)
Definition sample_store : filesystem :=
  (_write_internal winter_lag sample_calendar 11689 "store"
     [(7, [Row sample_open 100 101 99 100 1000])] None ∅).2.

Definition sample_reader : reader :=
  Reader "store" 11689 (slice_from sample_calendar 11689) None
    (list_to_map
       [("open", ∅); ("high", ∅); ("low", ∅); ("close", ∅);
        ("volume", ∅); ("sid", ∅); ("dt", ∅)]).

(** * Properties *)

(** ** Facts about [searchsorted] *)

Lemma searchsorted_nonneg (a : list Z) (v : Z) : 0 ≤ searchsorted a v.
Proof. induction a as [|x a IH]; simpl; [lia|]. case_bool_decide; lia. Qed.

Lemma searchsorted_le_length (a : list Z) (v : Z) :
  searchsorted a v ≤ Z.of_nat (length a).
Proof. induction a as [|x a IH]; simpl; [lia|]. case_bool_decide; lia. Qed.

(** The insertion point is characterised by what lies left and right of
    it; no order on [a] is needed for this direction. *)
Lemma searchsorted_eq (a : list Z) (v : Z) (k : nat) :
  (k ≤ length a)%nat →
  (∀ j x, (j < k)%nat → a !! j = Some x → x < v) →
  (∀ x, a !! k = Some x → v ≤ x) →
  searchsorted a v = Z.of_nat k.
Proof.
  revert k. induction a as [|x a IH]; intros k Hk Hlt Hge; simpl in *.
  - assert (k = 0%nat) as -> by lia. done.
  - destruct k as [|k].
    + rewrite bool_decide_eq_false_2; [done|].
      specialize (Hge x eq_refl). lia.
    + rewrite bool_decide_eq_true_2; [|by apply (Hlt 0%nat); [lia|]].
      rewrite (IH k); [lia|lia| |].
      * intros j y Hj Hy. apply (Hlt (S j)); [lia|done].
      * intros y Hy. by apply Hge.
Qed.

Lemma sorted_lookup_lt (l : list Z) (i j : nat) (x y : Z) :
  StronglySorted Z.lt l → l !! i = Some x → l !! j = Some y →
  (i < j)%nat → x < y.
Proof.
  intros Hs. revert i j. induction Hs as [|z l Hs IH Hall]; intros i j Hi Hj Hij.
  - done.
  - destruct j as [|j]; [lia|]. simpl in Hj. destruct i as [|i]; simpl in Hi.
    + simplify_eq. by eapply Forall_lookup_1.
    + eapply IH; [done..|lia].
Qed.

Lemma searchsorted_lookup (l : list Z) (i : nat) (x : Z) :
  StronglySorted Z.lt l → l !! i = Some x → searchsorted l x = Z.of_nat i.
Proof.
  intros Hs Hi. apply searchsorted_eq.
  - apply lookup_lt_Some in Hi. lia.
  - intros j y Hj Hy. by eapply sorted_lookup_lt.
  - intros y Hy. simplify_eq. lia.
Qed.

(** ** The calendar window of the reader and the day range of the writer *)

Lemma slice_from_filter (cal : list Z) (first : Z) :
  StronglySorted Z.lt cal →
  slice_from cal first = filter (λ d, first ≤ d) cal.
Proof.
  unfold slice_from. induction 1 as [|x l Hs IH Hall]; [done|]. simpl.
  case_bool_decide as Hx.
  - rewrite filter_cons_False by lia.
    pose proof (searchsorted_nonneg l first).
    replace (Z.to_nat (1 + searchsorted l first))
      with (S (Z.to_nat (searchsorted l first))) by lia.
    done.
  - simpl. rewrite filter_cons_True by lia. f_equal.
    symmetry. clear IH Hs. induction Hall as [|y l Hy Hall IH]; [done|].
    rewrite filter_cons_True by lia. by f_equal.
Qed.

Lemma slice_from_sorted (cal : list Z) (first : Z) :
  StronglySorted Z.lt cal → StronglySorted Z.lt (slice_from cal first).
Proof.
  intros Hs. unfold slice_from.
  rewrite <-(take_drop (Z.to_nat (searchsorted cal first)) cal) in Hs.
  by apply StronglySorted_app_1_r in Hs.
Qed.

Lemma days_in_range_slice (cal : list Z) (first last : Z) :
  StronglySorted Z.lt cal →
  days_in_range cal first last = filter (λ d, d ≤ last) (slice_from cal first).
Proof.
  intros Hs. rewrite slice_from_filter by done. unfold days_in_range.
  rewrite list_filter_filter. apply list_filter_iff. intros d. lia.
Qed.

Lemma sorted_filter_le (l : list Z) (last : Z) :
  StronglySorted Z.lt l → StronglySorted Z.lt (filter (λ d, d ≤ last) l).
Proof.
  induction 1 as [|x l Hs IH Hall]; [constructor|].
  destruct (decide (x ≤ last)).
  - rewrite filter_cons_True by done. constructor; [done|].
    rewrite list.Forall_forall in Hall |- *.
    intros y Hy%list_elem_of_filter. apply Hall, Hy.
  - by rewrite filter_cons_False.
Qed.

(** On a sorted calendar the days up to [last] are a prefix. *)
Lemma filter_le_lookup (l : list Z) (last : Z) (i : nat) (d : Z) :
  StronglySorted Z.lt l → l !! i = Some d → d ≤ last →
  filter (λ d, d ≤ last) l !! i = Some d.
Proof.
  intros Hs. revert i. induction Hs as [|x l Hs IH Hall]; intros i Hi Hd; [done|].
  destruct i as [|i]; simpl in Hi.
  - simplify_eq. by rewrite filter_cons_True.
  - assert (x < d) by (eapply Forall_lookup_1; done).
    rewrite filter_cons_True by lia. simpl. by apply IH.
Qed.

Lemma filter_le_lookup_inv (l : list Z) (last : Z) (i : nat) (d : Z) :
  StronglySorted Z.lt l → filter (λ d, d ≤ last) l !! i = Some d →
  l !! i = Some d ∧ d ≤ last.
Proof.
  intros Hs. revert i. induction Hs as [|x l Hs IH Hall]; intros i Hi; [done|].
  destruct (decide (x ≤ last)) as [Hx|Hx].
  - rewrite filter_cons_True in Hi by done. destruct i as [|i]; simpl in *.
    + by simplify_eq.
    + by apply IH.
  - rewrite filter_cons_False in Hi by done.
    assert (filter (λ d, d ≤ last) l = []) as Hnil.
    { clear IH Hs Hi. induction Hall as [|y l Hy Hall IH]; [done|].
      rewrite filter_cons_False by lia. done. }
    by rewrite Hnil in Hi.
Qed.

(** ** Sessions and the minute grid *)

Section Grid_facts.

Variable utc_lag : Z → Z.

(** US/Eastern is four or five hours behind UTC. *)
Hypothesis utc_lag_range : ∀ d, utc_lag d = 14400 ∨ utc_lag d = 18000.

Local Ltac unfold_time :=
  unfold minutes_offset_of, int_total_seconds, date, normalize_date,
    session_open, NS_PER_DAY, NS_PER_MINUTE, NS_PER_SECOND in *.

(** The whole 390-minute session lies inside the UTC day of its date. *)
Lemma date_in_session (d x : Z) :
  0 ≤ x < 390 * NS_PER_MINUTE → date (session_open utc_lag d + x) = d.
Proof.
  intros Hx. destruct (utc_lag_range d) as [Hl|Hl]; unfold_time; rewrite Hl;
    symmetry; apply (Z.div_unique_pos _ _ _ ((9 * 3600 + 31 * 60 + utc_lag d)
      * 1000000000 + x)); rewrite Hl; lia.
Qed.

Lemma date_session_open (d : Z) : date (session_open utc_lag d) = d.
Proof.
  rewrite <-(Z.add_0_r (session_open utc_lag d)). apply date_in_session.
  unfold NS_PER_MINUTE, NS_PER_SECOND. lia.
Qed.

Lemma minutes_offset_in_session (d m r : Z) :
  0 ≤ m < 390 → 0 ≤ r < NS_PER_MINUTE →
  minutes_offset_of utc_lag (session_open utc_lag d + m * NS_PER_MINUTE + r) = m.
Proof.
  intros Hm Hr. unfold minutes_offset_of.
  rewrite <-Z.add_assoc, date_in_session
    by (unfold NS_PER_MINUTE, NS_PER_SECOND in *; lia).
  replace (session_open utc_lag d + (m * NS_PER_MINUTE + r) - session_open utc_lag d)
    with (m * NS_PER_MINUTE + r) by lia.
  unfold int_total_seconds, NS_PER_MINUTE, NS_PER_SECOND in *.
  rewrite Z.quot_div_nonneg by lia.
  rewrite Z.div_div by lia.
  symmetry. apply (Z.div_unique_pos _ _ _ r); lia.
Qed.

(** Sessions of different days do not overlap. *)
Lemma session_open_mono (d d' m m' : Z) :
  d < d' → 0 ≤ m < 390 → 0 ≤ m' →
  session_open utc_lag d + m * NS_PER_MINUTE
    < session_open utc_lag d' + m' * NS_PER_MINUTE.
Proof.
  intros Hd Hm Hm'.
  destruct (utc_lag_range d) as [Hl|Hl], (utc_lag_range d') as [Hl'|Hl'];
    unfold_time; rewrite Hl, Hl'; lia.
Qed.

Lemma date_range_length (start : Z) (n : nat) : length (date_range start n) = n.
Proof. unfold date_range. by rewrite length_fmap, length_seq. Qed.

Lemma date_range_lookup (start : Z) (n m : nat) :
  (m < n)%nat →
  date_range start n !! m = Some (start + Z.of_nat m * NS_PER_MINUTE).
Proof.
  intros Hm. unfold date_range.
  by rewrite list_lookup_fmap, lookup_seq_lt.
Qed.

Lemma grid_cons (d : Z) (ds : list Z) :
  concat ((λ day, date_range (session_open utc_lag day) 390) <$> d :: ds)
  = date_range (session_open utc_lag d) 390
    ++ concat ((λ day, date_range (session_open utc_lag day) 390) <$> ds).
Proof. reflexivity. Qed.

Lemma grid_length (ds : list Z) :
  length (concat ((λ day, date_range (session_open utc_lag day) 390) <$> ds))
  = (390 * length ds)%nat.
Proof.
  induction ds as [|d ds IH]; [done|].
  rewrite grid_cons.
  rewrite List.length_app, date_range_length, IH. simpl length. lia.
Qed.

Lemma grid_lookup (ds : list Z) (i m : nat) (d : Z) :
  ds !! i = Some d → (m < 390)%nat →
  concat ((λ day, date_range (session_open utc_lag day) 390) <$> ds)
    !! (390 * i + m)%nat
  = Some (session_open utc_lag d + Z.of_nat m * NS_PER_MINUTE).
Proof.
  revert i. induction ds as [|x ds IH]; intros i Hi Hm; [done|].
  rewrite grid_cons. destruct i as [|i]; simpl in Hi.
  - simplify_eq. rewrite lookup_app_l by (rewrite date_range_length; lia).
    replace (390 * 0 + m)%nat with m by lia. by apply date_range_lookup.
  - rewrite lookup_app_r by (rewrite date_range_length; lia).
    rewrite date_range_length.
    replace (390 * S i + m - 390)%nat with (390 * i + m)%nat by lia.
    by apply IH.
Qed.

Lemma grid_lookup_inv (ds : list Z) (k : nat) (t : Z) :
  concat ((λ day, date_range (session_open utc_lag day) 390) <$> ds) !! k
    = Some t →
  ∃ (i m : nat) (d : Z),
    k = (390 * i + m)%nat ∧ (m < 390)%nat ∧ ds !! i = Some d ∧
    t = session_open utc_lag d + Z.of_nat m * NS_PER_MINUTE.
Proof.
  intros Hk. pose proof (lookup_lt_Some _ _ _ Hk) as Hlen.
  rewrite grid_length in Hlen.
  assert (k = (390 * (k / 390) + k `mod` 390)%nat) as Hdm
    by (apply Nat.div_mod; lia).
  assert (k `mod` 390 < 390)%nat as Hm by (apply Nat.mod_upper_bound; lia).
  destruct (lookup_lt_is_Some_2 ds (k / 390)%nat) as [d Hd]; [lia|].
  exists (k / 390)%nat, (k `mod` 390)%nat, d. split_and!; [done..|].
  pose proof (grid_lookup _ _ _ _ Hd Hm) as Hg.
  rewrite <-Hdm in Hg. congruence.
Qed.

(** The flattened grid is strictly increasing along a sorted day list. *)
Lemma grid_lookup_lt (ds : list Z) (j k : nat) (s t : Z) :
  StronglySorted Z.lt ds →
  concat ((λ day, date_range (session_open utc_lag day) 390) <$> ds) !! j
    = Some s →
  concat ((λ day, date_range (session_open utc_lag day) 390) <$> ds) !! k
    = Some t →
  (j < k)%nat → s < t.
Proof.
  intros Hs Hj Hk Hjk.
  apply grid_lookup_inv in Hj as (i & m & d & -> & Hm & Hd & ->).
  apply grid_lookup_inv in Hk as (i' & m' & d' & -> & Hm' & Hd' & ->).
  destruct (decide (i = i')) as [->|Hne].
  - simplify_eq. unfold NS_PER_MINUTE, NS_PER_SECOND. lia.
  - apply session_open_mono; [|lia..].
    eapply sorted_lookup_lt; [done..|lia].
Qed.

End Grid_facts.

(** ** Writer grid against reader position *)

Section Position_facts.

Variable utc_lag : Z → Z.
Hypothesis utc_lag_range : ∀ d, utc_lag d = 14400 ∨ utc_lag d = 18000.

(** The guard on [day_idx] never fires. *)
Lemma find_position_unfold (days : list Z) (minute_dt : Z) :
  _find_position_of_minute utc_lag days minute_dt
  = Ok (390 * searchsorted days (date minute_dt)
        + minutes_offset_of utc_lag minute_dt).
Proof.
  unfold _find_position_of_minute, minutes_offset_of.
  pose proof (searchsorted_nonneg days (date minute_dt)).
  by rewrite bool_decide_eq_false_2 by lia.
Qed.

Lemma find_position_in_session (days : list Z) (i : nat) (d m r : Z) :
  StronglySorted Z.lt days → days !! i = Some d →
  0 ≤ m < 390 → 0 ≤ r < NS_PER_MINUTE →
  _find_position_of_minute utc_lag days
    (session_open utc_lag d + m * NS_PER_MINUTE + r)
  = Ok (390 * Z.of_nat i + m).
Proof.
  intros Hs Hi Hm Hr. rewrite find_position_unfold.
  rewrite minutes_offset_in_session by done.
  rewrite <-Z.add_assoc, date_in_session
    by (done || unfold NS_PER_MINUTE, NS_PER_SECOND in *; lia).
  by rewrite (searchsorted_lookup _ _ _ Hs Hi).
Qed.

(** The grid the writer builds, over the reader's calendar window. *)
Lemma full_minutes_for_days_inv (cal : list Z) (first last_dt : Z)
    (minutes : list Z) :
  StronglySorted Z.lt cal →
  full_minutes_for_days utc_lag cal (session_open utc_lag first) last_dt
    = Ok minutes →
  minutes
  = concat ((λ day, date_range (session_open utc_lag day) 390)
              <$> filter (λ d, d ≤ date last_dt) (slice_from cal first)).
Proof.
  intros Hs. unfold full_minutes_for_days, normalize_date.
  rewrite date_session_open by done.
  rewrite days_in_range_slice by done.
  destruct (filter _ (slice_from cal first)) as [|x l]; [done|].
  intros [= <-]. done.
Qed.

Lemma full_minutes_for_days_Ok (cal : list Z) (first last_dt : Z)
    (i : nat) (d : Z) :
  StronglySorted Z.lt cal →
  slice_from cal first !! i = Some d → d ≤ date last_dt →
  full_minutes_for_days utc_lag cal (session_open utc_lag first) last_dt
  = Ok (concat ((λ day, date_range (session_open utc_lag day) 390)
                  <$> filter (λ d, d ≤ date last_dt) (slice_from cal first))).
Proof.
  intros Hs Hi Hd. unfold full_minutes_for_days, normalize_date.
  rewrite date_session_open by done.
  rewrite days_in_range_slice by done.
  pose proof (filter_le_lookup _ _ _ _ (slice_from_sorted _ first Hs) Hi Hd) as Hf.
  destruct (filter _ (slice_from cal first)) as [|x l]; [done|]. done.
Qed.

(** Claim C1. Over a strictly increasing calendar, the canonical grid and the
    reader's position arithmetic are inverse to each other: the grid holds
    at position [390 * dayIndex + minuteIndex] the minute [minuteIndex] of
    the trading day at [dayIndex] of the reader's calendar window, the
    reader maps that timestamp back to that position, every grid position
    arises so from exactly one pair, and distinct pairs give distinct
    positions. *)
Theorem grid_position_bijection (cal : list Z) (first last_dt : Z) :
  StronglySorted Z.lt cal →
  let days := slice_from cal first in
  (∀ (dayIndex minuteIndex : nat) (d : Z),
     days !! dayIndex = Some d → d ≤ date last_dt → (minuteIndex < 390)%nat →
     ∃ minutes t,
       full_minutes_for_days utc_lag cal (session_open utc_lag first) last_dt
         = Ok minutes ∧
       minutes !! (390 * dayIndex + minuteIndex)%nat = Some t ∧
       t = session_open utc_lag d + Z.of_nat minuteIndex * NS_PER_MINUTE ∧
       _find_position_of_minute utc_lag days t
         = Ok (390 * Z.of_nat dayIndex + Z.of_nat minuteIndex)) ∧
  (∀ (minutes : list Z) (k : nat) (t : Z),
     full_minutes_for_days utc_lag cal (session_open utc_lag first) last_dt
       = Ok minutes →
     minutes !! k = Some t →
     _find_position_of_minute utc_lag days t = Ok (Z.of_nat k) ∧
     ∃ (dayIndex minuteIndex : nat) (d : Z),
       k = (390 * dayIndex + minuteIndex)%nat ∧ (minuteIndex < 390)%nat ∧
       days !! dayIndex = Some d ∧ d ≤ date last_dt ∧
       t = session_open utc_lag d + Z.of_nat minuteIndex * NS_PER_MINUTE) ∧
  (∀ dayIndex minuteIndex dayIndex' minuteIndex' : nat,
     (minuteIndex < 390)%nat → (minuteIndex' < 390)%nat →
     (390 * dayIndex + minuteIndex = 390 * dayIndex' + minuteIndex')%nat →
     dayIndex = dayIndex' ∧ minuteIndex = minuteIndex').
Proof.
  intros Hs days.
  pose proof (slice_from_sorted _ first Hs) as Hds. fold days in Hds.
  split_and!.
  - intros i m d Hi Hd Hm.
    eexists _, _. split; [by eapply full_minutes_for_days_Ok|].
    split; [|split; [reflexivity|]].
    + apply grid_lookup; [|done]. by apply filter_le_lookup.
    + rewrite <-(Z.add_0_r (_ + _ * _)).
      apply find_position_in_session; [done..|lia|].
      unfold NS_PER_MINUTE, NS_PER_SECOND; lia.
  - intros minutes k t Hmin Hk.
    apply full_minutes_for_days_inv in Hmin as ->; [|done].
    apply grid_lookup_inv in Hk as (i & m & d & -> & Hm & Hd & ->).
    apply filter_le_lookup_inv in Hd as [Hd Hle]; [|done].
    split.
    + rewrite <-(Z.add_0_r (_ + _ * _)).
      rewrite (find_position_in_session _ i) by
        (done || lia || unfold NS_PER_MINUTE, NS_PER_SECOND; lia).
      f_equal. lia.
    + by exists i, m, d.
  - intros i m i' m' Hm Hm' Heq. lia.
Qed.

End Position_facts.

(** ** The reader's position arithmetic *)

Lemma sorted_lookup_inj (l : list Z) (i j : nat) (x : Z) :
  StronglySorted Z.lt l → l !! i = Some x → l !! j = Some x → i = j.
Proof.
  intros Hs Hi Hj. destruct (Nat.lt_trichotomy i j) as [H|[H|H]]; [|done|].
  - pose proof (sorted_lookup_lt _ _ _ _ _ Hs Hi Hj H). lia.
  - pose proof (sorted_lookup_lt _ _ _ _ _ Hs Hj Hi H). lia.
Qed.

Lemma winter_lag_range (d : Z) : winter_lag d = 14400 ∨ winter_lag d = 18000.
Proof. by right. Qed.

Lemma sample_calendar_sorted : StronglySorted Z.lt sample_calendar.
Proof. unfold sample_calendar. repeat constructor; lia. Qed.



Lemma grid_position_bijection_witness :
  StronglySorted Z.lt sample_calendar ∧
  ∃ minutes t,
    full_minutes_for_days winter_lag sample_calendar
      (session_open winter_lag 11689) (sample_open + 2 * NS_PER_DAY)
      = Ok minutes ∧
    minutes !! (390 * 1 + 5)%nat = Some t ∧
    t = session_open winter_lag 11690 + Z.of_nat 5 * NS_PER_MINUTE ∧
    _find_position_of_minute winter_lag (slice_from sample_calendar 11689) t
      = Ok (390 * Z.of_nat 1 + Z.of_nat 5).
Proof.
  split; [exact sample_calendar_sorted|].
  destruct (grid_position_bijection winter_lag winter_lag_range
              sample_calendar 11689 (sample_open + 2 * NS_PER_DAY)
              sample_calendar_sorted) as (H & _ & _).
  apply (H 1%nat 5%nat 11690); [reflexivity|by vm_compute|lia].
Defined.

Section Writer_reader_facts.

Variable utc_lag : Z → Z.
Hypothesis utc_lag_range : ∀ d, utc_lag d = 14400 ∨ utc_lag d = 18000.

(** Claim C9. On a timestamp that is a grid minute the writer's scatter index
    [minutes.searchsorted(dt)] equals the reader's offset; on a timestamp
    strictly between two consecutive grid minutes of one session the
    writer's index is the reader's offset plus one. *)
Theorem writer_index_vs_reader_offset (cal : list Z) (first last_dt : Z)
    (minutes : list Z) :
  StronglySorted Z.lt cal →
  full_minutes_for_days utc_lag cal (session_open utc_lag first) last_dt
    = Ok minutes →
  let days := slice_from cal first in
  (∀ (k : nat) (t : Z),
     minutes !! k = Some t →
     searchsorted minutes t = Z.of_nat k ∧
     _find_position_of_minute utc_lag days t = Ok (Z.of_nat k)) ∧
  (∀ (k : nat) (t0 t1 T : Z),
     minutes !! k = Some t0 → minutes !! S k = Some t1 →
     date t0 = date t1 → t0 < T < t1 →
     searchsorted minutes T = Z.of_nat k + 1 ∧
     _find_position_of_minute utc_lag days T = Ok (Z.of_nat k)).
Proof.
  intros Hs Hmin days.
  pose proof (slice_from_sorted _ first Hs) as Hds. fold days in Hds.
  apply full_minutes_for_days_inv in Hmin; [|done..]. fold days in Hmin.
  assert (StronglySorted Z.lt (filter (λ d, d ≤ date last_dt) days)) as Hfs.
  { by apply sorted_filter_le. }
  split.
  - intros k t Hk. split.
    + apply searchsorted_eq.
      * apply lookup_lt_Some in Hk. lia.
      * intros j x Hj Hx. subst minutes. by eapply grid_lookup_lt.
      * intros x Hx. simplify_eq. lia.
    + subst minutes.
      apply grid_lookup_inv in Hk as (i & m & d & -> & Hm & Hd & ->).
      apply filter_le_lookup_inv in Hd as [Hd Hle]; [|done].
      rewrite <-(Z.add_0_r (_ + _ * _)).
      rewrite (find_position_in_session utc_lag utc_lag_range _ i) by
        (done || lia || unfold NS_PER_MINUTE, NS_PER_SECOND; lia).
      f_equal. lia.
  - intros k t0 t1 T Hk HSk Hdate HT. split.
    + replace (Z.of_nat k + 1) with (Z.of_nat (S k)) by lia.
      apply searchsorted_eq.
      * apply lookup_lt_Some in HSk. lia.
      * intros j x Hj Hx. destruct (decide (j = k)) as [->|Hne].
        -- simplify_eq. lia.
        -- assert (x < t0); [|lia]. subst minutes.
           eapply grid_lookup_lt; [done..|lia].
      * intros x Hx. simplify_eq. lia.
    + subst minutes.
      pose proof Hk as Hk'. pose proof HSk as HSk'.
      apply grid_lookup_inv in Hk' as (i & m & d & Hki & Hm & Hd & Ht0).
      apply grid_lookup_inv in HSk' as (i' & m' & d' & HSki & Hm' & Hd' & Ht1).
      assert (d = d') as <-.
      { rewrite Ht0, Ht1 in Hdate.
        rewrite !date_in_session in Hdate
          by (done || unfold NS_PER_MINUTE, NS_PER_SECOND; lia). done. }
      assert (i = i') as <- by (by eapply sorted_lookup_inj).
      apply filter_le_lookup_inv in Hd as [Hd Hle]; [|done].
      replace T with (session_open utc_lag d + Z.of_nat m * NS_PER_MINUTE
                      + (T - t0)) by lia.
      rewrite (find_position_in_session utc_lag utc_lag_range _ i);
        [f_equal; lia|done..|lia|].
      subst t0 t1. unfold NS_PER_MINUTE, NS_PER_SECOND in *. lia.
Qed.

End Writer_reader_facts.

Lemma writer_index_vs_reader_offset_witness :
  ∃ minutes,
    full_minutes_for_days winter_lag sample_calendar
      (session_open winter_lag 11689) sample_open = Ok minutes ∧
    minutes !! 1%nat = Some (sample_open + NS_PER_MINUTE) ∧
    minutes !! 2%nat = Some (sample_open + 2 * NS_PER_MINUTE) ∧
    searchsorted minutes (sample_open + NS_PER_MINUTE + 30 * NS_PER_SECOND)
      = Z.of_nat 1 + 1 ∧
    _find_position_of_minute winter_lag (slice_from sample_calendar 11689)
      (sample_open + NS_PER_MINUTE + 30 * NS_PER_SECOND) = Ok (Z.of_nat 1).
Proof.
  eexists. split; [by vm_compute|].
  split; [by vm_compute|]. split; [by vm_compute|].
  refine (proj2 (writer_index_vs_reader_offset winter_lag winter_lag_range
            sample_calendar 11689 sample_open _ sample_calendar_sorted _)
          1%nat (sample_open + NS_PER_MINUTE)
          (sample_open + 2 * NS_PER_MINUTE) _ _ _ _ _).
  - by vm_compute.
  - by vm_compute.
  - by vm_compute.
  - by vm_compute.
  - by vm_compute.
Defined.

(** Python 2 and Python 3 division give the same position whenever it is
    not negative. *)
Lemma find_position_py3_agree (utc_lag : Z → Z) (days : list Z) (T pos : Z) :
  _find_position_of_minute utc_lag days T = Ok pos → 0 ≤ pos →
  _find_position_of_minute_py3 utc_lag days T = Ok pos.
Proof.
  rewrite find_position_unfold. unfold _find_position_of_minute_py3.
  pose proof (searchsorted_nonneg days (date T)) as Hnn.
  rewrite bool_decide_eq_false_2 by lia.
  unfold minutes_offset_of. intros [= <-] Hpos. f_equal.
  set (s := int_total_seconds _) in *. set (i := searchsorted _ _) in *.
  assert (0 ≤ 390 * i * 60 + s) as Hs.
  { pose proof (Z.mod_pos_bound s 60). pose proof (Z.div_mod s 60). lia. }
  rewrite Z.quot_div_nonneg by lia.
  replace (390 * i * 60 + s) with (390 * i * 60 + s) by done.
  rewrite Z.div_add_l by lia. done.
Qed.





(** Claim C3, the code at the failing inputs. 2002-01-05 is a Saturday, absent
    from the calendar: at 09:31 that day the reader returns 1170, the slot
    of the Monday open. 2002-01-01 is before the first trading day: at
    09:31 that day the reader returns 0, the slot of the anchor open.
    The guard on [day_idx] fires in neither case. *)
Theorem out_of_calendar_returns_offset :
  let days := slice_from sample_calendar 11689 in
  let saturday := session_open winter_lag 11692 in
  let new_year := session_open winter_lag 11688 in
  ((date saturday ∉ days) ∧
   _find_position_of_minute winter_lag days saturday = Ok 1170 ∧
   _find_position_of_minute winter_lag days (session_open winter_lag 11694)
     = Ok 1170) ∧
  (date new_year < 11689 ∧
   _find_position_of_minute winter_lag days new_year = Ok 0 ∧
   _find_position_of_minute winter_lag days (session_open winter_lag 11689)
     = Ok 0).
Proof.
  split; (split; [|by vm_compute]).
  - rewrite list_elem_of_In. vm_compute. intuition discriminate.
  - by vm_compute.
Qed.

(** ** The writer's scatter *)

Lemma setitem_Ok (a : list Z) (idx v : Z) :
  0 ≤ idx < Z.of_nat (length a) →
  setitem a idx v = Ok (<[Z.to_nat idx := to_uint32 v]> a).
Proof. intros H. unfold setitem. by rewrite bool_decide_eq_true_2. Qed.

Lemma setitem_Raise (a : list Z) (idx v : Z) :
  Z.of_nat (length a) ≤ idx → setitem a idx v = Raise IndexError.
Proof.
  intros H. unfold setitem.
  by rewrite !bool_decide_eq_false_2 by lia.
Qed.


Lemma write_row_Ok (n : nat) (minutes : list Z) (cols : columns) (r : row) :
  (∀ f, length (column f cols) = n) →
  searchsorted minutes (row_dt r) < Z.of_nat n →
  ∃ cols',
    write_row minutes cols r = Ok cols' ∧
    ∀ f, column f cols'
         = <[Z.to_nat (searchsorted minutes (row_dt r))
               := to_uint32 (cell f r)]> (column f cols).
Proof.
  intros Hlen Hidx. pose proof (searchsorted_nonneg minutes (row_dt r)).
  pose proof (Hlen c_dt) as Hdt. pose proof (Hlen c_open) as Hopen.
  pose proof (Hlen c_high) as Hhigh. pose proof (Hlen c_low) as Hlow.
  pose proof (Hlen c_close) as Hclose. pose proof (Hlen c_volume) as Hvol.
  simpl in Hdt, Hopen, Hhigh, Hlow, Hclose, Hvol.
  unfold write_row. eexists. split.
  - rewrite !setitem_Ok by lia. reflexivity.
  - by intros [].
Qed.

Lemma write_row_Raise (n : nat) (minutes : list Z) (cols : columns) (r : row) :
  (∀ f, length (column f cols) = n) →
  Z.of_nat n ≤ searchsorted minutes (row_dt r) →
  write_row minutes cols r = Raise IndexError.
Proof.
  intros Hlen Hidx. pose proof (Hlen c_dt) as Hdt. simpl in Hdt.
  unfold write_row. by rewrite (setitem_Raise (dt_col cols)) by lia.
Qed.

(** Each column ends as the fold of its own assignments. *)
Lemma write_rows_Ok (n : nat) (minutes : list Z) (df : list row) (cols : columns) :
  (∀ f, length (column f cols) = n) →
  Forall (λ r, searchsorted minutes (row_dt r) < Z.of_nat n) df →
  ∃ cols',
    write_rows minutes cols df = Ok cols' ∧
    ∀ f, column f cols'
         = foldl (λ c r, <[Z.to_nat (searchsorted minutes (row_dt r))
                             := to_uint32 (cell f r)]> c)
             (column f cols) df.
Proof.
  revert cols. induction df as [|r df IH]; intros cols Hlen Hall.
  - by exists cols.
  - apply Forall_cons in Hall as [Hr Hall].
    destruct (write_row_Ok n minutes cols r Hlen Hr) as (cols1 & Hw & Hc).
    destruct (IH cols1) as (cols' & Hws & Hcs); [|done|].
    { intros f. by rewrite Hc, length_insert. }
    exists cols'. split.
    + simpl. rewrite Hw. exact Hws.
    + intros f. rewrite Hcs. simpl. by rewrite Hc.
Qed.


Lemma foldl_insert_length (g : row → nat) (w : row → Z) (df : list row) (c : list Z) :
  length (foldl (λ c r, <[g r := w r]> c) c df) = length c.
Proof.
  revert c. induction df as [|r df IH]; intros c; [done|].
  simpl. by rewrite IH, length_insert.
Qed.

Lemma foldl_insert_lookup_other (g : row → nat) (w : row → Z) (df : list row)
    (c : list Z) (j : nat) :
  (∀ r, r ∈ df → g r ≠ j) →
  foldl (λ c r, <[g r := w r]> c) c df !! j = c !! j.
Proof.
  revert c. induction df as [|r df IH]; intros c Hne; [done|].
  simpl. rewrite IH by (intros r' Hr'; apply Hne; by right).
  apply list_lookup_insert_ne, Hne. by left.
Qed.


Lemma filter_le_length (l : list Z) (i : nat) (d : Z) :
  StronglySorted Z.lt l → l !! i = Some d →
  length (filter (λ x, x ≤ d) l) = S i.
Proof.
  intros Hs Hi.
  pose proof (filter_le_lookup l d i d Hs Hi (Z.le_refl d)) as Hf.
  apply lookup_lt_Some in Hf.
  destruct (filter (λ x, x ≤ d) l !! S i) as [x|] eqn:Hx.
  - apply filter_le_lookup_inv in Hx as [Hx Hle]; [|done].
    pose proof (sorted_lookup_lt l i (S i) d x Hs Hi Hx). lia.
  - apply lookup_ge_None in Hx. lia.
Qed.

Lemma make_ctable_lookup (cols : columns) (f : column_name) :
  make_ctable cols !! label f = Some (column f cols).
Proof. unfold make_ctable. destruct f; simpl; by simplify_map_eq. Qed.

Lemma zero_columns_length (n : nat) (f : column_name) :
  length (column f (Columns (zeros n) (zeros n) (zeros n)
                            (zeros n) (zeros n) (zeros n))) = n.
Proof. destruct f; apply length_replicate. Qed.

Lemma zero_columns_column (n : nat) (f : column_name) :
  column f (Columns (zeros n) (zeros n) (zeros n)
                    (zeros n) (zeros n) (zeros n)) = zeros n.
Proof. by destruct f. Qed.

Section Writer_facts.

Variable utc_lag : Z → Z.
Hypothesis utc_lag_range : ∀ d, utc_lag d = 14400 ∨ utc_lag d = 18000.

Lemma searchsorted_grid (ds : list Z) (k : nat) (t : Z) :
  StronglySorted Z.lt ds →
  concat ((λ day, date_range (session_open utc_lag day) 390) <$> ds) !! k
    = Some t →
  searchsorted
    (concat ((λ day, date_range (session_open utc_lag day) 390) <$> ds)) t
  = Z.of_nat k.
Proof.
  intros Hs Hk. apply searchsorted_eq.
  - apply lookup_lt_Some in Hk. lia.
  - intros j x Hj Hx. by eapply grid_lookup_lt.
  - intros x Hx. simplify_eq. lia.
Qed.

(** Claim C4. A frame holding one observation, at the session open of the
    trading day [D] found at [dayIndex] of the calendar window, is written
    as six arrays [open], [high], [low], [close], [volume], [dt], each of
    length [390 * (dayIndex + 1)] and each zero at every position other
    than [390 * dayIndex]. *)
Theorem single_observation_zero_fill (cal : list Z) (first : Z)
    (dayIndex : nat) (D o h l c v : Z) (directory : string)
    (sid_path_func : option (string → Z → string)) (asset_id : Z)
    (fs : filesystem) :
  StronglySorted Z.lt cal →
  slice_from cal first !! dayIndex = Some D →
  fs !! sid_path sid_path_func directory asset_id = None →
  ∃ cols,
    write_asset utc_lag cal first directory sid_path_func asset_id
      [Row (session_open utc_lag D) o h l c v] fs
    = (Ok (),
       <[sid_path sid_path_func directory asset_id
           := CTable (make_ctable cols)]>
         (<[sid_path sid_path_func directory asset_id := EmptyDir]> fs)) ∧
    ∀ f,
      make_ctable cols !! label f = Some (column f cols) ∧
      length (column f cols) = (390 * (dayIndex + 1))%nat ∧
      ∀ j, (j < 390 * (dayIndex + 1))%nat → j ≠ (390 * dayIndex)%nat →
           column f cols !! j = Some 0.
Proof.
  intros Hs HD Hfresh.
  pose proof (slice_from_sorted _ first Hs) as Hds.
  set (r := Row (session_open utc_lag D) o h l c v).
  set (ds := filter (λ d, d ≤ D) (slice_from cal first)).
  set (minutes :=
         concat ((λ day, date_range (session_open utc_lag day) 390) <$> ds)).
  assert (length minutes = (390 * (dayIndex + 1))%nat) as Hlen.
  { unfold minutes. rewrite grid_length by done. unfold ds.
    rewrite (filter_le_length _ dayIndex) by done. lia. }
  assert (ds !! dayIndex = Some D) as HdsD
    by (by apply filter_le_lookup).
  assert (minutes !! (390 * dayIndex + 0)%nat = Some (session_open utc_lag D))
    as Hgrid.
  { unfold minutes. rewrite (grid_lookup utc_lag ds dayIndex 0 D) by (done || lia).
    f_equal. unfold NS_PER_MINUTE. lia. }
  assert (searchsorted minutes (row_dt r) = Z.of_nat (390 * dayIndex)) as Hidx.
  { unfold minutes. erewrite searchsorted_grid; [|by apply sorted_filter_le|exact Hgrid].
    lia. }
  destruct (write_rows_Ok (length minutes) minutes [r]
              (Columns (zeros (length minutes)) (zeros (length minutes))
                 (zeros (length minutes)) (zeros (length minutes))
                 (zeros (length minutes)) (zeros (length minutes))))
    as (cols & Hw & Hc).
  { apply zero_columns_length. }
  { constructor; [|constructor]. rewrite Hidx. lia. }
  exists cols. split.
  - unfold write_asset, makedirs. rewrite Hfresh.
    unfold dense_columns. simpl index_last. simpl mbind.
    rewrite (full_minutes_for_days_Ok utc_lag utc_lag_range cal first
               (session_open utc_lag D) dayIndex D Hs HD)
      by (by rewrite date_session_open).
    rewrite date_session_open by done. fold ds. fold minutes.
    simpl mbind. fold r. simpl in Hw. by rewrite Hw.
  - intros f. split; [apply make_ctable_lookup|].
    rewrite Hc, zero_columns_column. cbn [foldl]. rewrite Hidx, Nat2Z.id.
    unfold zeros.
    split; [by rewrite length_insert, length_replicate|].
    intros j Hj Hne. rewrite list_lookup_insert_ne by done.
    apply lookup_replicate_2. lia.
Qed.

End Writer_facts.

Lemma single_observation_zero_fill_witness :
  slice_from sample_calendar 11689 !! 1%nat = Some 11690 ∧
  ∃ cols,
    write_asset winter_lag sample_calendar 11689 "store" None 7
      [Row (session_open winter_lag 11690) 100 101 99 100 1000] ∅
    = (Ok (),
       <[sid_path None "store" 7 := CTable (make_ctable cols)]>
         (<[sid_path None "store" 7 := EmptyDir]> ∅)) ∧
    ∀ f,
      make_ctable cols !! label f = Some (column f cols) ∧
      length (column f cols) = (390 * (1 + 1))%nat ∧
      ∀ j, (j < 390 * (1 + 1))%nat → j ≠ (390 * 1)%nat →
           column f cols !! j = Some 0.
Proof.
  split; [by vm_compute|].
  apply (single_observation_zero_fill winter_lag winter_lag_range
           sample_calendar 11689 1%nat 11690 100 101 99 100 1000
           "store" None 7 ∅ sample_calendar_sorted).
  - by vm_compute.
  - apply lookup_empty.
Defined.

(** ** Exclusive creation *)

Lemma write_asset_exists (utc_lag : Z → Z) (cal : list Z) (first : Z)
    (directory : string) (sid_path_func : option (string → Z → string))
    (asset_id : Z) (df : list row) (fs : filesystem) (nd : node) :
  fs !! sid_path sid_path_func directory asset_id = Some nd →
  write_asset utc_lag cal first directory sid_path_func asset_id df fs
  = (Raise OSError, fs).
Proof. intros H. unfold write_asset, makedirs. by rewrite H. Qed.

(** What exists before a turn of the loop is still there after it. *)
Lemma write_asset_preserves (utc_lag : Z → Z) (cal : list Z) (first : Z)
    (directory : string) (sid_path_func : option (string → Z → string))
    (asset_id : Z) (df : list row) (fs : filesystem) (p : string) (nd : node) :
  fs !! p = Some nd →
  (write_asset utc_lag cal first directory sid_path_func asset_id df fs).2
    !! p = Some nd.
Proof.
  intros Hp. unfold write_asset, makedirs.
  destruct (fs !! sid_path sid_path_func directory asset_id) as [nd'|] eqn:Hpath;
    [done|].
  assert (sid_path sid_path_func directory asset_id ≠ p) by congruence.
  destruct (dense_columns utc_lag cal first df); simpl;
    by rewrite ?lookup_insert_ne by done.
Qed.

Lemma write_assets_preserves (utc_lag : Z → Z) (cal : list Z) (first : Z)
    (directory : string) (sid_path_func : option (string → Z → string))
    (iterator : list (Z * list row)) (fs : filesystem) (p : string) (nd : node) :
  fs !! p = Some nd →
  (write_assets utc_lag cal first directory sid_path_func iterator fs).2
    !! p = Some nd.
Proof.
  revert fs. induction iterator as [|[asset_id df] rest IH]; intros fs Hp; [done|].
  simpl.
  pose proof (write_asset_preserves utc_lag cal first directory sid_path_func
                asset_id df fs p nd Hp) as H1.
  destruct (write_asset utc_lag cal first directory sid_path_func asset_id df fs)
    as [[u|e] fs1]; simpl in H1; [by apply IH|done].
Qed.

(** Claim C7. When the destination path of an instrument already exists, its
    turn of the writer's loop raises [OSError] at [os.makedirs], before
    any column is built or stored, and leaves the file system as it was;
    the loop stops there. Whatever instruments a whole [_write_internal]
    call is given, what is stored at that path stays in place. *)
Theorem existing_destination_refused (utc_lag : Z → Z) (cal : list Z)
    (first : Z) (directory : string)
    (sid_path_func : option (string → Z → string))
    (asset_id : Z) (df : list row) (rest : list (Z * list row))
    (fs : filesystem) (nd : node) :
  fs !! sid_path sid_path_func directory asset_id = Some nd →
  write_asset utc_lag cal first directory sid_path_func asset_id df fs
    = (Raise OSError, fs) ∧
  write_assets utc_lag cal first directory sid_path_func
      ((asset_id, df) :: rest) fs
    = (Raise OSError, fs) ∧
  ∀ iterator,
    sid_path sid_path_func directory asset_id
      ≠ join directory METADATA_FILENAME →
    (_write_internal utc_lag cal first directory iterator sid_path_func fs).2
      !! sid_path sid_path_func directory asset_id = Some nd.
Proof.
  intros Hp. split_and!.
  - by eapply write_asset_exists.
  - simpl. by erewrite write_asset_exists.
  - intros iterator Hne. unfold _write_internal.
    apply write_assets_preserves. unfold write_metadata.
    by rewrite lookup_insert_ne.
Qed.

Lemma existing_destination_refused_witness :
  let fs : filesystem := {[ sid_path None "store" 7 := CTable ∅ ]} in
  fs !! sid_path None "store" 7 = Some (CTable ∅) ∧
  write_asset winter_lag sample_calendar 11689 "store" None 7
    [Row sample_open 100 101 99 100 1000] fs
  = (Raise OSError, fs).
Proof.
  intros fs. split; [apply lookup_singleton_eq|].
  apply (existing_destination_refused winter_lag sample_calendar 11689
           "store" None 7 [Row sample_open 100 101 99 100 1000] [] fs
           (CTable ∅)).
  apply lookup_singleton_eq.
Defined.

(** ** Observations outside the grid *)

Section Outside_grid.

Variable utc_lag : Z → Z.
Hypothesis utc_lag_range : ∀ d, utc_lag d = 14400 ∨ utc_lag d = 18000.



End Outside_grid.



(** ** Round trip *)

Section Round_trip.

Variable utc_lag : Z → Z.
Hypothesis utc_lag_range : ∀ d, utc_lag d = 14400 ∨ utc_lag d = 18000.



End Round_trip.



(** ** The reader's cache of column handles *)

Lemma open_minute_file_cached (fs : filesystem) (field : string) (asset : Z)
    (self : reader) (opened : list string) (h : handle) :
  _carrays self !! field ≫= (.!! pretty asset) = Some h →
  _open_minute_file fs field asset (self, opened) = (Ok h, (self, opened)).
Proof. intros H. unfold _open_minute_file. by rewrite H. Qed.

(** A call never drops or replaces an entry of the cache. *)
Lemma open_minute_file_keeps (fs : filesystem) (field field' : string)
    (asset asset' : Z) (st : reader_state) (h : handle) :
  _carrays st.1 !! field ≫= (.!! pretty asset) = Some h →
  _carrays (_open_minute_file fs field' asset' st).2.1 !! field
    ≫= (.!! pretty asset) = Some h.
Proof.
  destruct st as [self opened]. simpl. intros Hc. unfold _open_minute_file.
  destruct (_carrays self !! field' ≫= (.!! pretty asset')) as [c|] eqn:Hc';
    [done|].
  destruct (_get_ctable fs self asset' opened) as [[[n t]|e] opened']; [|done].
  destruct (t !! field') as [data|]; [|done].
  unfold set_carray.
  destruct (_carrays self !! field') as [d|] eqn:Hd; [|done]. simpl.
  destruct (decide (field' = field)) as [->|Hne].
  - rewrite lookup_insert_eq. simpl.
    rewrite Hd in Hc. simpl in Hc, Hc'.
    rewrite lookup_insert_ne; [done|]. congruence.
  - by rewrite lookup_insert_ne.
Qed.

Lemma open_minute_files_keeps (fs : filesystem) (field : string) (asset : Z)
    (calls : list (string * Z)) (st : reader_state) (h : handle) :
  _carrays st.1 !! field ≫= (.!! pretty asset) = Some h →
  _carrays (open_minute_files fs calls st).1 !! field
    ≫= (.!! pretty asset) = Some h.
Proof.
  revert st. induction calls as [|[f a] calls IH]; intros st Hc; [done|].
  unfold open_minute_files. simpl. apply IH. by apply open_minute_file_keeps.
Qed.

(** Claim C8, amended to what the code does. A call of [_open_minute_file] that returns a
    handle leaves it in the cache under its (field, instrument) pair and
    has opened the backend at most once; after any further calls, a call
    for the same pair returns the identical handle and changes nothing:
    the cache is as it was and no path is added to the record of opened
    tables. *)
Theorem cached_handle_reused (fs : filesystem) (field : string) (asset : Z)
    (st st' : reader_state) (h : handle) (calls : list (string * Z)) :
  _open_minute_file fs field asset st = (Ok h, st') →
  _carrays st'.1 !! field ≫= (.!! pretty asset) = Some h ∧
  (st'.2 = st.2 ∨ ∃ path, st'.2 = st.2 ++ [path]) ∧
  _open_minute_file fs field asset (open_minute_files fs calls st')
  = (Ok h, open_minute_files fs calls st').
Proof.
  intros Hcall.
  assert (_carrays st'.1 !! field ≫= (.!! pretty asset) = Some h
          ∧ (st'.2 = st.2 ∨ ∃ path, st'.2 = st.2 ++ [path])) as [Hc Hopen].
  { destruct st as [self opened]. unfold _open_minute_file in Hcall.
    destruct (_carrays self !! field ≫= (.!! pretty asset)) as [c|] eqn:Hc.
    - simplify_eq. simpl. by split; [|left].
    - unfold _get_ctable, bcolz_open in Hcall.
      destruct (fs !! _) as [[|t|]|]; simplify_eq.
      destruct (t !! field) as [data|]; simplify_eq.
      unfold set_carray in Hcall.
      destruct (_carrays self !! field) as [d|] eqn:Hd; simplify_eq. simpl.
      split; [|right; by eexists].
      rewrite lookup_insert_eq. simpl. by rewrite lookup_insert_eq. }
  split_and!; [done..|].
  pose proof (open_minute_files_keeps fs field asset calls st' h Hc) as Hk.
  destruct (open_minute_files fs calls st') as [self'' opened''].
  by apply open_minute_file_cached.
Qed.

Lemma cached_handle_reused_witness :
  reader_init sample_calendar sample_store "store" None = Ok sample_reader ∧
  ∃ h st',
    _open_minute_file sample_store "open" 7 (sample_reader, []) = (Ok h, st') ∧
    st'.2 = ["store/7.bcolz"] ∧
    _open_minute_file sample_store "open" 7
      (open_minute_files sample_store [("close", 7); ("sid", 7)] st')
    = (Ok h, open_minute_files sample_store [("close", 7); ("sid", 7)] st').
Proof.
  split; [by vm_compute|].
  eexists _, _. split; [by vm_compute|]. split; [by vm_compute|].
  apply (cached_handle_reused sample_store "open" 7 (sample_reader, [])).
  by vm_compute.
Defined.

(** Claim C8, counterexample. The reader keeps a cache slot for the field
    [sid], and the table the writer stored has no such column. Each call
    for the pair (sid, 7) finds nothing cached, opens the table, fails on
    the column and caches nothing: two calls, two opens of one path. *)
Lemma failed_lookup_reopens_counterexample :
  reader_init sample_calendar sample_store "store" None = Ok sample_reader ∧
  _carrays sample_reader !! "sid" = Some ∅ ∧
  (∃ t, sample_store !! "store/7.bcolz" = Some (CTable t) ∧
        t !! "sid" = None) ∧
  (_open_minute_file sample_store "sid" 7 (sample_reader, [])).1
    = Raise BackendError ∧
  (open_minute_files sample_store [("sid", 7); ("sid", 7)]
     (sample_reader, [])).2
    = ["store/7.bcolz"; "store/7.bcolz"].
Proof.
  split; [by vm_compute|]. split; [by vm_compute|].
  split; [eexists; split; by vm_compute|].
  split; by vm_compute.
Qed.

(** * Further properties of the writer and the reader *)

(** ** One turn of the writer's loop, taken apart *)

Lemma write_asset_Ok_inv (utc_lag : Z → Z) (cal : list Z) (first : Z)
    (directory : string) (sid_path_func : option (string → Z → string))
    (asset_id : Z) (df : list row) (fs fs' : filesystem) (u : unit) :
  write_asset utc_lag cal first directory sid_path_func asset_id df fs
    = (Ok u, fs') →
  fs !! sid_path sid_path_func directory asset_id = None ∧
  ∃ cols,
    dense_columns utc_lag cal first df = Ok cols ∧
    fs' = <[sid_path sid_path_func directory asset_id
              := CTable (make_ctable cols)]>
            (<[sid_path sid_path_func directory asset_id := EmptyDir]> fs).
Proof.
  unfold write_asset, makedirs.
  destruct (fs !! sid_path sid_path_func directory asset_id) as [nd|];
    [intros; simplify_eq|].
  destruct (dense_columns utc_lag cal first df) as [cols|e];
    intros; simplify_eq.
  split; [done|]. by exists cols.
Qed.


Lemma write_assets_app (utc_lag : Z → Z) (cal : list Z) (first : Z)
    (directory : string) (sid_path_func : option (string → Z → string))
    (l1 l2 : list (Z * list row)) (fs : filesystem) :
  write_assets utc_lag cal first directory sid_path_func (l1 ++ l2) fs
  = match write_assets utc_lag cal first directory sid_path_func l1 fs with
    | (Ok _, fs1) =>
        write_assets utc_lag cal first directory sid_path_func l2 fs1
    | (Raise e, fs1) => (Raise e, fs1)
    end.
Proof.
  revert fs. induction l1 as [|[a df] l1 IH]; intros fs; [done|].
  simpl.
  destruct (write_asset utc_lag cal first directory sid_path_func a df fs)
    as [[u|e] fs1]; [apply IH|done].
Qed.


(** Extra X2. Over a strictly increasing calendar, the calendar window
    [slice_indexer] gives the reader holds exactly the trading days on or
    after the first trading day, in increasing order, and when the first
    trading day is itself a trading day it is the day at index 0. *)
Theorem reader_window (cal : list Z) (first : Z) :
  StronglySorted Z.lt cal →
  (∀ d, d ∈ slice_from cal first ↔ d ∈ cal ∧ first ≤ d) ∧
  StronglySorted Z.lt (slice_from cal first) ∧
  (first ∈ cal → slice_from cal first !! 0%nat = Some first).
Proof.
  intros Hs. split_and!.
  - intros d. rewrite slice_from_filter by done.
    rewrite list_elem_of_filter. tauto.
  - by apply slice_from_sorted.
  - intros Hin.
    assert (first ∈ slice_from cal first) as Hin'.
    { rewrite slice_from_filter by done. apply list_elem_of_filter.
      split; [lia|done]. }
    apply list_elem_of_lookup in Hin' as [i Hi].
    destruct i as [|i]; [done|].
    destruct (slice_from cal first !! 0%nat) as [x|] eqn:Hx.
    + pose proof (sorted_lookup_lt _ 0 (S i) x first
                    (slice_from_sorted _ first Hs) Hx Hi).
      assert (x ∈ slice_from cal first) as Hxin
        by (apply list_elem_of_lookup; eauto).
      rewrite slice_from_filter in Hxin by done.
      apply list_elem_of_filter in Hxin as [Hge _]. lia.
    + apply lookup_ge_None in Hx. apply lookup_lt_Some in Hi. lia.
Qed.

Lemma reader_window_witness :
  StronglySorted Z.lt sample_calendar ∧
  slice_from sample_calendar 11690 !! 0%nat = Some 11690.
Proof.
  split; [exact sample_calendar_sorted|].
  apply (reader_window sample_calendar 11690 sample_calendar_sorted).
  apply list_elem_of_lookup. by exists 1%nat.
Defined.

(** ** Failed and completed writes *)



(** Extra X4. The loop of [_write_internal] ends at the first instrument
    whose turn raises: the exception and the file system are those of
    that turn, and the instruments listed after it play no part. *)
Theorem write_stops_at_first_failure (utc_lag : Z → Z) (cal : list Z)
    (first : Z) (directory : string)
    (sid_path_func : option (string → Z → string))
    (pre post : list (Z * list row)) (asset_id : Z) (df : list row)
    (fs fs1 fs2 : filesystem) (e : exn) :
  write_assets utc_lag cal first directory sid_path_func pre
    (write_metadata directory first fs) = (Ok (), fs1) →
  write_asset utc_lag cal first directory sid_path_func asset_id df fs1
    = (Raise e, fs2) →
  _write_internal utc_lag cal first directory
    (pre ++ (asset_id, df) :: post) sid_path_func fs
  = (Raise e, fs2).
Proof.
  intros Hpre Hturn. unfold _write_internal.
  rewrite write_assets_app, Hpre. simpl. by rewrite Hturn.
Qed.

Lemma write_stops_at_first_failure_witness :
  let fs2 : filesystem :=
    <[sid_path None "store" 7 := EmptyDir]> (write_metadata "store" 11689 ∅) in
  _write_internal winter_lag sample_calendar 11689 "store"
    ([] ++ (7, []) :: [(8, [Row sample_open 100 101 99 100 1000])]) None ∅
  = (Raise IndexError, fs2) ∧
  fs2 !! sid_path None "store" 8 = None.
Proof.
  intros fs2. split.
  - apply (write_stops_at_first_failure winter_lag sample_calendar 11689
             "store" None [] [(8, [Row sample_open 100 101 99 100 1000])]
             7 [] ∅ (write_metadata "store" 11689 ∅) fs2 IndexError);
      [reflexivity|].
    unfold write_asset, makedirs.
    assert (write_metadata "store" 11689 ∅ !! sid_path None "store" 7 = None)
      as -> by (by vm_compute).
    reflexivity.
  - by vm_compute.
Defined.




(** ** What the dense columns hold *)

Lemma write_rows_Ok_inv (n : nat) (minutes : list Z) (df : list row)
    (cols cols' : columns) :
  (∀ f, length (column f cols) = n) →
  write_rows minutes cols df = Ok cols' →
  Forall (λ r, searchsorted minutes (row_dt r) < Z.of_nat n) df ∧
  ∀ f, column f cols'
       = foldl (λ c r, <[Z.to_nat (searchsorted minutes (row_dt r))
                           := to_uint32 (cell f r)]> c)
           (column f cols) df.
Proof.
  revert cols. induction df as [|r df IH]; intros cols Hlen Hw.
  - simpl in Hw. simplify_eq. by split; [constructor|].
  - simpl in Hw.
    destruct (decide (searchsorted minutes (row_dt r) < Z.of_nat n)) as [Hr|Hr].
    + destruct (write_row_Ok n minutes cols r Hlen Hr) as (cols1 & Hw1 & Hc1).
      rewrite Hw1 in Hw. simpl in Hw.
      destruct (IH cols1) as [Hall Hc]; [|done|].
      { intros f. by rewrite Hc1, length_insert. }
      split; [by constructor|]. intros f. rewrite Hc. simpl. by rewrite Hc1.
    + rewrite (write_row_Raise n) in Hw by (done || lia). done.
Qed.

(** A frame whose columns were built: the grid they were built over, and
    each column as the fold of its assignments over zeros. *)
Lemma dense_columns_Ok_inv (utc_lag : Z → Z) (cal : list Z) (first : Z)
    (df : list row) (cols : columns) :
  dense_columns utc_lag cal first df = Ok cols →
  ∃ last_dt minutes,
    index_last df = Ok last_dt ∧
    full_minutes_for_days utc_lag cal (session_open utc_lag first) last_dt
      = Ok minutes ∧
    Forall (λ r, searchsorted minutes (row_dt r) < Z.of_nat (length minutes))
      df ∧
    ∀ f, column f cols
         = foldl (λ c r, <[Z.to_nat (searchsorted minutes (row_dt r))
                             := to_uint32 (cell f r)]> c)
             (zeros (length minutes)) df.
Proof.
  unfold dense_columns. intros Hd.
  destruct (index_last df) as [last_dt|] eqn:Hl; [|done]. simpl in Hd.
  destruct (full_minutes_for_days utc_lag cal (session_open utc_lag first)
              last_dt) as [minutes|] eqn:Hm; [|done]. simpl in Hd.
  apply (write_rows_Ok_inv (length minutes)) in Hd as [Hall Hc];
    [|apply zero_columns_length].
  exists last_dt, minutes. split_and!; [done..|].
  intros f. by rewrite Hc, zero_columns_column.
Qed.


(** Extra X6. When the columns of a frame are built, all six have the
    length of the minute grid, and every position to which no row of the
    frame is scattered holds zero in each of them. *)
Theorem unobserved_minutes_are_zero (utc_lag : Z → Z) (cal : list Z)
    (first : Z) (df : list row) (cols : columns) (last_dt : Z)
    (minutes : list Z) :
  dense_columns utc_lag cal first df = Ok cols →
  index_last df = Ok last_dt →
  full_minutes_for_days utc_lag cal (session_open utc_lag first) last_dt
    = Ok minutes →
  ∀ f,
    length (column f cols) = length minutes ∧
    ∀ j, (j < length minutes)%nat →
         (∀ r, r ∈ df → searchsorted minutes (row_dt r) ≠ Z.of_nat j) →
         column f cols !! j = Some 0.
Proof.
  intros Hd Hl Hm f.
  apply dense_columns_Ok_inv in Hd as (l' & m' & Hl' & Hm' & Hall & Hc).
  assert (l' = last_dt) as -> by congruence.
  assert (m' = minutes) as -> by congruence.
  rewrite Hc. split.
  - rewrite foldl_insert_length. apply length_replicate.
  - intros j Hj Hnone. rewrite foldl_insert_lookup_other.
    + by apply lookup_replicate_2.
    + intros r Hr Heq. apply (Hnone r Hr).
      pose proof (searchsorted_nonneg minutes (row_dt r)). lia.
Qed.

Lemma unobserved_minutes_are_zero_witness :
  let df := [Row (sample_open + 30 * NS_PER_SECOND) 100 101 99 100 1000] in
  ∃ cols minutes,
    dense_columns winter_lag sample_calendar 11689 df = Ok cols ∧
    full_minutes_for_days winter_lag sample_calendar
      (session_open winter_lag 11689) (sample_open + 30 * NS_PER_SECOND)
      = Ok minutes ∧
    length (column c_volume cols) = length minutes ∧
    column c_volume cols !! 0%nat = Some 0.
Proof.
  intros df. eexists _, _.
  split; [by vm_compute|]. split; [by vm_compute|].
  match goal with
  | |- length (column _ ?c) = length ?m ∧ _ =>
      destruct (unobserved_minutes_are_zero winter_lag sample_calendar 11689
                  df c (sample_open + 30 * NS_PER_SECOND) m) with (f := c_volume)
        as [Hlen Hzero]
  end.
  - by vm_compute.
  - reflexivity.
  - by vm_compute.
  - split; [exact Hlen|]. apply Hzero.
    + vm_compute. lia.
    + intros r Hr. apply list_elem_of_singleton in Hr as ->. by vm_compute.
Defined.





(** ** The minute grid in general *)

Lemma sorted_filter (P : Z → Prop) `{!∀ x, Decision (P x)} (l : list Z) :
  StronglySorted Z.lt l → StronglySorted Z.lt (filter P l).
Proof.
  induction 1 as [|x l Hs IH Hall]; [constructor|].
  destruct (decide (P x)).
  - rewrite filter_cons_True by done. constructor; [done|].
    rewrite list.Forall_forall in Hall |- *.
    intros y Hy%list_elem_of_filter. apply Hall, Hy.
  - by rewrite filter_cons_False.
Qed.

(** Extra X9. [full_minutes_for_days] raises exactly when no trading day
    lies between the dates of its two arguments, and the exception is then
    the [ValueError] of [np.concatenate]; it raises nothing else. *)
Theorem full_minutes_raises_iff_no_day (utc_lag : Z → Z) (env : list Z)
    (dt1 dt2 : Z) :
  (full_minutes_for_days utc_lag env dt1 dt2 = Raise ValueError ↔
   ∀ d, d ∈ env → ¬ (date dt1 ≤ d ≤ date dt2)) ∧
  ∀ e, full_minutes_for_days utc_lag env dt1 dt2 = Raise e → e = ValueError.
Proof.
  unfold full_minutes_for_days, normalize_date, days_in_range.
  destruct (filter (λ d, date dt1 ≤ d ≤ date dt2) env) as [|x l] eqn:Hf.
  - split; [|by intros e [= <-]]. split; [|done].
    intros _ d Hd Hrange.
    assert (d ∈ filter (λ d, date dt1 ≤ d ≤ date dt2) env) as Hin
      by (by apply list_elem_of_filter).
    rewrite Hf in Hin. by apply elem_of_nil in Hin.
  - split; [|done]. split; [done|].
    intros Hnone. exfalso.
    assert (x ∈ filter (λ d, date dt1 ≤ d ≤ date dt2) env) as Hin
      by (rewrite Hf; by left).
    apply list_elem_of_filter in Hin as [Hrange Hin]. by apply (Hnone x).
Qed.

Section Grid_in_general.

Variable utc_lag : Z → Z.
Hypothesis utc_lag_range : ∀ d, utc_lag d = 14400 ∨ utc_lag d = 18000.

(** Extra X10. Over a strictly increasing calendar, the grid
    [full_minutes_for_days] returns holds 390 timestamps for each trading
    day between the dates of its arguments and nothing else: it is not
    empty, it is strictly increasing, and the date of each of its
    timestamps is one of those trading days. *)
Theorem full_minutes_grid_shape (env : list Z) (dt1 dt2 : Z)
    (minutes : list Z) :
  StronglySorted Z.lt env →
  full_minutes_for_days utc_lag env dt1 dt2 = Ok minutes →
  length minutes
    = (390 * length (days_in_range env (date dt1) (date dt2)))%nat ∧
  (0 < length minutes)%nat ∧
  (∀ j k s t, minutes !! j = Some s → minutes !! k = Some t →
              (j < k)%nat → s < t) ∧
  ∀ k t, minutes !! k = Some t →
         date t ∈ env ∧ date dt1 ≤ date t ≤ date dt2.
Proof.
  intros Hs Hm.
  pose proof (sorted_filter (λ d, date dt1 ≤ d ≤ date dt2) env Hs) as Hfs.
  fold (days_in_range env (date dt1) (date dt2)) in Hfs.
  assert (minutes
          = concat ((λ day, date_range (session_open utc_lag day) 390)
                      <$> days_in_range env (date dt1) (date dt2))
          ∧ (0 < length (days_in_range env (date dt1) (date dt2)))%nat)
    as [-> Hpos].
  { unfold full_minutes_for_days, normalize_date in Hm.
    destruct (days_in_range env (date dt1) (date dt2)) as [|x l]; [done|].
    rewrite fmap_cons in Hm. cbv beta iota in Hm. injection Hm as <-.
    split; [by rewrite fmap_cons|simpl; lia]. }
  split_and!.
  - apply grid_length.
  - rewrite grid_length. lia.
  - intros j k s t Hj Hk Hjk. by eapply grid_lookup_lt.
  - intros k t Hk.
    apply grid_lookup_inv in Hk as (i & m & d & -> & Hm' & Hd & ->).
    rewrite date_in_session
      by (done || unfold NS_PER_MINUTE, NS_PER_SECOND; lia).
    assert (d ∈ days_in_range env (date dt1) (date dt2)) as Hin
      by (apply list_elem_of_lookup; eauto).
    apply list_elem_of_filter in Hin as [Hrange Hin]. done.
Qed.

(** Extra X11. Two frames the writer cannot turn into columns: an empty
    frame raises [IndexError] at [df.index[-1]], and a frame whose last
    row is dated before the first trading day raises [ValueError], there
    being no day to build a grid from. *)
Theorem unwritable_frames (cal : list Z) (first : Z) :
  dense_columns utc_lag cal first [] = Raise IndexError ∧
  ∀ df last_dt,
    index_last df = Ok last_dt → date last_dt < first →
    dense_columns utc_lag cal first df = Raise ValueError.
Proof.
  split; [done|]. intros df last_dt Hl Hlt.
  unfold dense_columns. rewrite Hl. simpl.
  destruct (full_minutes_raises_iff_no_day utc_lag cal
              (session_open utc_lag first) last_dt) as [[_ Hraise] _].
  rewrite Hraise; [done|].
  intros d _. rewrite date_session_open by done. lia.
Qed.

End Grid_in_general.

Lemma full_minutes_grid_shape_witness :
  let minutes :=
    concat ((λ day, date_range (session_open winter_lag day) 390)
              <$> [11689; 11690]) in
  full_minutes_for_days winter_lag sample_calendar sample_open
    (sample_open + NS_PER_DAY) = Ok minutes ∧
  length minutes
    = (390 * length (days_in_range sample_calendar (date sample_open)
                       (date (sample_open + NS_PER_DAY))))%nat.
Proof.
  intros minutes.
  assert (full_minutes_for_days winter_lag sample_calendar sample_open
            (sample_open + NS_PER_DAY) = Ok minutes) as Hm by (by vm_compute).
  split; [exact Hm|].
  exact (proj1 (full_minutes_grid_shape winter_lag winter_lag_range
                  sample_calendar sample_open (sample_open + NS_PER_DAY)
                  minutes sample_calendar_sorted Hm)).
Defined.

Lemma unwritable_frames_witness :
  let early := [Row (sample_open - NS_PER_DAY) 100 101 99 100 1000] in
  date (sample_open - NS_PER_DAY) < 11689 ∧
  dense_columns winter_lag sample_calendar 11689 early = Raise ValueError.
Proof.
  intros early. split; [by vm_compute|].
  apply (unwritable_frames winter_lag winter_lag_range sample_calendar 11689)
    with (last_dt := sample_open - NS_PER_DAY); [reflexivity|by vm_compute].
Defined.

(** ** The reader against the file system *)

Lemma get_ctable_path (fs : filesystem) (self : reader) (asset : Z)
    (opened : list string) :
  _get_ctable fs self asset opened
  = bcolz_open fs (reader_path self asset) opened.
Proof. unfold _get_ctable, reader_path. by destruct (_sid_path_func self). Qed.

Lemma open_minute_file_no_table (fs : filesystem) (field : string)
    (asset : Z) (st : reader_state) :
  (∀ t, fs !! reader_path st.1 asset ≠ Some (CTable t)) →
  (_open_minute_file fs field asset st).2 = st ∧
  (_carrays st.1 !! field ≫= (.!! pretty asset) = None →
   _open_minute_file fs field asset st = (Raise BackendError, st)).
Proof.
  destruct st as [self opened]. simpl. intros Hno.
  unfold _open_minute_file. rewrite get_ctable_path. unfold bcolz_open.
  destruct (_carrays self !! field ≫= (.!! pretty asset)) as [h|]; [done|].
  destruct (fs !! reader_path self asset) as [[|t|]|] eqn:Hp; try done.
  by destruct (Hno t).
Qed.

(** Extra X12. Calls of [_open_minute_file] for instruments that have
    no stored table leave the reader as it was, however many are made:
    nothing is cached and nothing is recorded as opened; each such call
    whose pair is not cached raises from the backend. *)
Theorem unknown_instrument_lookup (fs : filesystem)
    (calls : list (string * Z)) (st : reader_state) :
  (∀ c, c ∈ calls → ∀ t, fs !! reader_path st.1 c.2 ≠ Some (CTable t)) →
  open_minute_files fs calls st = st ∧
  ∀ c, c ∈ calls →
    _carrays st.1 !! c.1 ≫= (.!! pretty c.2) = None →
    _open_minute_file fs c.1 c.2 st = (Raise BackendError, st).
Proof.
  intros Hno. split.
  - induction calls as [|c calls IH]; [done|].
    unfold open_minute_files in *. simpl.
    destruct (open_minute_file_no_table fs c.1 c.2 st) as [-> _].
    + apply Hno. by left.
    + apply IH. intros c' Hc'. apply Hno. by right.
  - intros c Hc Hnone.
    by apply (open_minute_file_no_table fs c.1 c.2 st); [apply Hno|].
Qed.

Lemma unknown_instrument_lookup_witness :
  open_minute_files sample_store [("open", 8); ("close", 9); ("open", 8)]
    (sample_reader, []) = (sample_reader, []) ∧
  _open_minute_file sample_store "open" 8 (sample_reader, [])
    = (Raise BackendError, (sample_reader, [])).
Proof.
  destruct (unknown_instrument_lookup sample_store
              [("open", 8); ("close", 9); ("open", 8)] (sample_reader, []))
    as [Hst Hcall].
  - intros c Hc t.
    repeat (apply elem_of_cons in Hc as [->|Hc]);
      [vm_compute; discriminate..|].
    exfalso. by eapply elem_of_nil.
  - split; [exact Hst|].
    apply (Hcall ("open", 8)); [by left|by vm_compute].
Defined.

Lemma set_carray_paths (self self' : reader) (field sid_str : string)
    (c : handle) :
  set_carray self field sid_str c = Ok self' →
  (∀ asset, reader_path self' asset = reader_path self asset) ∧
  ∃ d, _carrays self !! field = Some d ∧
       _carrays self' = <[field := <[sid_str := c]> d]> (_carrays self).
Proof.
  unfold set_carray. destruct (_carrays self !! field) as [d|]; [|done].
  intros [= <-]. split; [done|]. by exists d.
Qed.

Lemma cache_sound_opened (fs : filesystem) (self : reader)
    (opened more : list string) :
  cache_sound fs (self, opened) → cache_sound fs (self, opened ++ more).
Proof.
  intros Hsound field asset h Hc.
  destruct (Hsound field asset h Hc) as (Hf & Ho & Htab).
  split_and!; [done| |done]. simpl in *. by apply lookup_app_l_Some.
Qed.

Lemma open_minute_file_sound (fs : filesystem) (field : string) (asset : Z)
    (st : reader_state) :
  cache_sound fs st → cache_sound fs (_open_minute_file fs field asset st).2.
Proof.
  destruct st as [self opened]. intros Hsound.
  unfold _open_minute_file. rewrite get_ctable_path. unfold bcolz_open.
  destruct (_carrays self !! field ≫= (.!! pretty asset)) as [h|] eqn:Hc;
    [exact Hsound|].
  destruct (fs !! reader_path self asset) as [[|t|]|] eqn:Hp;
    try exact Hsound.
  destruct (t !! field) as [data|] eqn:Ht;
    [|by apply cache_sound_opened].
  destruct (set_carray self field (pretty asset)
              (Handle (length opened) field data)) as [self'|] eqn:Hset;
    [|by apply cache_sound_opened].
  apply set_carray_paths in Hset as (Hpaths & d & Hd & Hnew). simpl.
  intros field0 asset0 h0. simpl. rewrite Hpaths, Hnew.
  destruct (decide (field = field0)) as [<-|Hnf].
  - rewrite lookup_insert_eq. simpl.
    destruct (decide (pretty asset = pretty asset0)) as [Heq|Hna].
    + apply (inj pretty) in Heq as <-. rewrite lookup_insert_eq.
      intros [= <-]. simpl. split_and!; [done| |by exists t].
      by rewrite lookup_app_r, Nat.sub_diag by lia.
    + rewrite lookup_insert_ne by done. intros Hold.
      destruct (Hsound field asset0 h0) as (Hf & Ho & Htab).
      { simpl. by rewrite Hd. }
      split_and!; [done| |done]. simpl in Ho.
      by apply lookup_app_l_Some.
  - rewrite lookup_insert_ne by done. intros Hold.
    destruct (Hsound field0 asset0 h0 Hold) as (Hf & Ho & Htab).
    split_and!; [done| |done]. simpl in Ho. by apply lookup_app_l_Some.
Qed.

Lemma fresh_caches_empty (field : string) (d : gmap string handle) :
  (list_to_map
     [("open", ∅); ("high", ∅); ("low", ∅); ("close", ∅);
      ("volume", ∅); ("sid", ∅); ("dt", ∅)]
   : gmap string (gmap string handle)) !! field = Some d →
  d = ∅.
Proof.
  intros Hd%elem_of_list_to_map_2.
  repeat (apply elem_of_cons in Hd as [[= _ <-]|Hd]; [done|]).
  by apply elem_of_nil in Hd.
Qed.

(** Extra X13. From a reader as [__init__] makes it, after any calls of
    [_open_minute_file], every handle in the cache is the right one: it
    is the column named by its field, taken from the table stored at the
    path of its instrument, by the open recorded under its number. *)
Theorem cache_holds_the_stored_columns (cal : list Z) (fs : filesystem)
    (rootdir : string) (sid_path_func : option (string → Z → string))
    (self : reader) (calls : list (string * Z)) :
  reader_init cal fs rootdir sid_path_func = Ok self →
  cache_sound fs (open_minute_files fs calls (self, [])).
Proof.
  intros Hinit.
  assert (cache_sound fs (self, [])) as Hbase.
  { unfold reader_init in Hinit.
    destruct (_get_metadata fs rootdir) as [first|]; [|done].
    injection Hinit as <-.
    intros field asset h Hc.
    apply bind_Some in Hc as (d & Hd & Hh).
    apply fresh_caches_empty in Hd as ->. by rewrite lookup_empty in Hh. }
  revert Hbase. generalize (self, [] : list string).
  induction calls as [|c calls IH]; intros st Hst; [done|].
  unfold open_minute_files in *. simpl. apply IH.
  by apply open_minute_file_sound.
Qed.

Lemma cache_holds_the_stored_columns_witness :
  reader_init sample_calendar sample_store "store" None = Ok sample_reader ∧
  cache_sound sample_store
    (open_minute_files sample_store [("open", 7); ("sid", 7); ("dt", 7)]
       (sample_reader, [])).
Proof.
  assert (reader_init sample_calendar sample_store "store" None
          = Ok sample_reader) as Hinit by (by vm_compute).
  split; [exact Hinit|].
  exact (cache_holds_the_stored_columns sample_calendar sample_store "store"
           None sample_reader [("open", 7); ("sid", 7); ("dt", 7)] Hinit).
Defined.

Lemma join_plain (directory b : string) :
  directory ≠ EmptyString → ends_with_slash directory = false →
  join directory b = directory +:+ "/" +:+ b.
Proof.
  intros Hne Hslash. unfold join.
  by rewrite bool_decide_eq_false_2, Hslash.
Qed.

(** Extra X14. Writer and reader agree on where an instrument lives:
    with the same path function, or with none and a directory name that
    is not empty and does not end in a slash, a table the writer has just
    stored is the one [_open_minute_file] opens for that instrument, and
    the handle it returns and caches for a column carries exactly the
    column the writer built. *)
Theorem written_table_opens (utc_lag : Z → Z) (cal : list Z) (first : Z)
    (directory : string) (sid_path_func : option (string → Z → string))
    (asset_id : Z) (df : list row) (fs fs' : filesystem)
    (self : reader) (opened : list string) (f : column_name)
    (d : gmap string handle) :
  (sid_path_func = None →
   directory ≠ EmptyString ∧ ends_with_slash directory = false) →
  write_asset utc_lag cal first directory sid_path_func asset_id df fs
    = (Ok (), fs') →
  rootdir self = directory → _sid_path_func self = sid_path_func →
  _carrays self !! label f = Some d → d !! pretty asset_id = None →
  ∃ cols self',
    dense_columns utc_lag cal first df = Ok cols ∧
    _open_minute_file fs' (label f) asset_id (self, opened)
      = (Ok (Handle (length opened) (label f) (column f cols)),
         (self', opened ++ [sid_path sid_path_func directory asset_id])) ∧
    _carrays self' !! label f ≫= (.!! pretty asset_id)
      = Some (Handle (length opened) (label f) (column f cols)).
Proof.
  intros Hdir Hw Hroot Hspf Hslot Hfree.
  apply write_asset_Ok_inv in Hw as (_ & cols & Hcols & ->).
  assert (reader_path self asset_id
          = sid_path sid_path_func directory asset_id) as Hpath.
  { unfold reader_path, sid_path. rewrite Hspf, Hroot.
    destruct sid_path_func as [g|]; [done|].
    destruct (Hdir eq_refl) as [Hne Hslash]. by rewrite join_plain. }
  exists cols.
  eexists (Reader (rootdir self) (first_trading_day self) (trading_days self)
             (_sid_path_func self) _).
  split; [done|].
  unfold _open_minute_file. rewrite get_ctable_path, Hpath.
  unfold bcolz_open. rewrite Hslot. simpl. rewrite Hfree.
  rewrite lookup_insert_eq, make_ctable_lookup.
  unfold set_carray. rewrite Hslot. split; [reflexivity|].
  simpl. rewrite lookup_insert_eq. simpl. apply lookup_insert_eq.
Qed.

Lemma written_table_opens_witness :
  let bar := [Row sample_open 100 101 99 100 1000] in
  let fs' := (write_asset winter_lag sample_calendar 11689 "store" None 7
                bar ∅).2 in
  ∃ cols self',
    dense_columns winter_lag sample_calendar 11689 bar = Ok cols ∧
    _open_minute_file fs' (label c_close) 7 (sample_reader, [])
      = (Ok (Handle (length ([] : list string)) (label c_close)
               (column c_close cols)),
         (self', [] ++ [sid_path None "store" 7])) ∧
    _carrays self' !! label c_close ≫= (.!! pretty 7)
      = Some (Handle (length ([] : list string)) (label c_close)
                (column c_close cols)).
Proof.
  intros bar fs'.
  apply (written_table_opens winter_lag sample_calendar 11689 "store" None 7
           bar ∅ fs' sample_reader [] c_close ∅).
  - intros _. by split.
  - vm_compute. reflexivity.
  - reflexivity.
  - reflexivity.
  - vm_compute. reflexivity.
  - apply lookup_empty.
Defined.

(** ** Frames pulled from a generator *)

Lemma write_frames_of_list (utc_lag : Z → Z) (cal : list Z) (first : Z)
    (directory : string) (sid_path_func : option (string → Z → string))
    (assets : list (Z * list row)) (fs : filesystem) :
  write_frames utc_lag cal first directory sid_path_func
    (MinuteBarWriterFromDataFrames_gen_frames assets) fs
  = write_assets utc_lag cal first directory sid_path_func assets fs.
Proof.
  revert fs. induction assets as [|[a df] rest IH]; intros fs; [done|].
  simpl.
  destruct (write_asset utc_lag cal first directory sid_path_func a df fs)
    as [[u|e] fs1]; [apply IH|done].
Qed.

Lemma write_frames_csv_missing (utc_lag : Z → Z) (cal : list Z) (first : Z)
    (directory : string) (sid_path_func : option (string → Z → string))
    (_asset_map : gmap Z string) (read_csv : string → result (list row))
    (pre : list Z) (frames : list (Z * list row)) (asset : Z)
    (post : list Z) (fs : filesystem) :
  Forall2 (λ a x, x.1 = a ∧
                  ∃ p, _asset_map !! a = Some p ∧ read_csv p = Ok x.2)
    pre frames →
  _asset_map !! asset = None →
  write_frames utc_lag cal first directory sid_path_func
    (MinuteBarWriterFromCSVs_gen_frames _asset_map read_csv
       (pre ++ asset :: post)) fs
  = match write_assets utc_lag cal first directory sid_path_func frames fs with
    | (Ok _, fs1) => (Raise KeyError, fs1)
    | (Raise e, fs1) => (Raise e, fs1)
    end.
Proof.
  intros Hpre Hmiss. revert fs.
  induction Hpre as [|a [a' df] pre frames (Ha & p & Hp & Hread) Hpre IH];
    intros fs.
  - simpl. by rewrite Hmiss.
  - simpl in *. subst a'. rewrite Hp, Hread. simpl.
    destruct (write_asset utc_lag cal first directory sid_path_func a df fs)
      as [[u|e] fs1]; [apply IH|done].
Qed.

(** Extra X15. [MinuteBarWriterFromCSVs.gen_frames] is pulled one asset
    at a time by the writer's loop, so an asset without a path in the
    asset map raises [KeyError] only when its turn comes: by then the
    metadata and every asset listed before it have been written as
    [_write_internal] would write them, and the assets listed after it
    are never looked up. If an earlier asset's own write raises, that
    exception ends the call instead. *)
Theorem csv_missing_path_raises_in_turn (utc_lag : Z → Z) (cal : list Z)
    (first : Z) (directory : string)
    (sid_path_func : option (string → Z → string))
    (_asset_map : gmap Z string) (read_csv : string → result (list row))
    (pre : list Z) (frames : list (Z * list row)) (asset : Z)
    (post : list Z) (fs : filesystem) :
  Forall2 (λ a x, x.1 = a ∧
                  ∃ p, _asset_map !! a = Some p ∧ read_csv p = Ok x.2)
    pre frames →
  _asset_map !! asset = None →
  write utc_lag cal first directory
    (MinuteBarWriterFromCSVs_gen_frames _asset_map read_csv
       (pre ++ asset :: post))
    sid_path_func fs
  = match _write_internal utc_lag cal first directory frames
            sid_path_func fs with
    | (Ok _, fs1) => (Raise KeyError, fs1)
    | (Raise e, fs1) => (Raise e, fs1)
    end.
Proof.
  intros Hpre Hmiss. unfold write, _write_internal.
  by apply write_frames_csv_missing.
Qed.

Lemma csv_missing_path_raises_in_turn_witness :
  let bar := [Row sample_open 100 101 99 100 1000] in
  let asset_map : gmap Z string := {[ 7 := "seven.csv" ]} in
  let read_csv := λ p : string,
    if bool_decide (p = "seven.csv") then Ok bar else Raise IOError in
  ∃ fs1,
    write winter_lag sample_calendar 11689 "store"
      (MinuteBarWriterFromCSVs_gen_frames asset_map read_csv
         ([7] ++ 8 :: [9])) None ∅
    = (Raise KeyError, fs1) ∧
    (∃ t, fs1 !! sid_path None "store" 7 = Some (CTable t)) ∧
    fs1 !! sid_path None "store" 9 = None.
Proof.
  intros bar asset_map read_csv.
  pose proof (csv_missing_path_raises_in_turn winter_lag sample_calendar
                11689 "store" None asset_map read_csv [7] [(7, bar)] 8 [9] ∅)
    as H.
  exists (_write_internal winter_lag sample_calendar 11689 "store"
            [(7, bar)] None ∅).2.
  split.
  - rewrite H.
    + assert ((_write_internal winter_lag sample_calendar 11689 "store"
                 [(7, bar)] None ∅).1 = Ok ()) as Hok by (by vm_compute).
      destruct (_write_internal winter_lag sample_calendar 11689 "store"
                  [(7, bar)] None ∅) as [[[]|e] fs1]; [done|done].
    + constructor; [|constructor]. split; [done|].
      exists "seven.csv". split; [apply lookup_singleton_eq|done].
    + by vm_compute.
  - split; [eexists; by vm_compute|by vm_compute].
Defined.

(** ** Positions inside a session *)

(** Extra X16. For a timestamp anywhere inside the 390-minute session of
    the trading day at index [i], whole minute or not, the reader returns
    [390 * i] plus the number of whole minutes elapsed since the session
    open, a position in the block [390 * i, 390 * (i + 1)) of that day. *)
Theorem in_session_position (utc_lag : Z → Z) (days : list Z) (i : nat)
    (d T : Z) :
  (∀ d, utc_lag d = 14400 ∨ utc_lag d = 18000) →
  StronglySorted Z.lt days → days !! i = Some d →
  session_open utc_lag d ≤ T < session_open utc_lag d + 390 * NS_PER_MINUTE →
  ∃ pos,
    _find_position_of_minute utc_lag days T = Ok pos ∧
    pos = 390 * Z.of_nat i + (T - session_open utc_lag d) / NS_PER_MINUTE ∧
    390 * Z.of_nat i ≤ pos < 390 * (Z.of_nat i + 1).
Proof.
  intros Hlag Hs Hi HT.
  set (delta := T - session_open utc_lag d).
  assert (0 < NS_PER_MINUTE) as Hpos by (unfold NS_PER_MINUTE, NS_PER_SECOND; lia).
  pose proof (Z.div_mod delta NS_PER_MINUTE ltac:(lia)) as Hdm.
  pose proof (Z.mod_pos_bound delta NS_PER_MINUTE Hpos) as Hr.
  assert (0 ≤ delta / NS_PER_MINUTE < 390) as Hm.
  { split; [apply Z.div_pos; unfold delta; lia|].
    apply Z.div_lt_upper_bound; unfold delta; lia. }
  exists (390 * Z.of_nat i + delta / NS_PER_MINUTE).
  split; [|split; [done|lia]].
  replace T with (session_open utc_lag d
                  + delta / NS_PER_MINUTE * NS_PER_MINUTE
                  + delta `mod` NS_PER_MINUTE) by (unfold delta in *; lia).
  by apply find_position_in_session.
Qed.

Lemma in_session_position_witness :
  let T := sample_open + NS_PER_DAY + 7 * NS_PER_MINUTE + 59999999999 in
  session_open winter_lag 11690 ≤ T
    < session_open winter_lag 11690 + 390 * NS_PER_MINUTE ∧
  ∃ pos,
    _find_position_of_minute winter_lag sample_calendar T = Ok pos ∧
    pos = 390 * Z.of_nat 1 + (T - session_open winter_lag 11690) / NS_PER_MINUTE ∧
    390 * Z.of_nat 1 ≤ pos < 390 * (Z.of_nat 1 + 1).
Proof.
  intros T.
  assert (session_open winter_lag 11690 ≤ T
            < session_open winter_lag 11690 + 390 * NS_PER_MINUTE) as HT
    by (by vm_compute).
  split; [exact HT|].
  exact (in_session_position winter_lag sample_calendar 1 11690 T
           winter_lag_range sample_calendar_sorted eq_refl HT).
Defined.
